(** * Battery listener of the GPS HAL (gps/android/utils/battery_listener.cpp)

    A shallow embedding of [BatteryListenerImpl] and of the facade functions
    built on it, with the properties of the debounce worker, of service
    acquisition, of teardown and of the process-wide entry points.

    Conventions of the embedding.
    - The object, the health HAL and the steady clock form an explicit
      state; every method is a computation in a small state monad whose
      outcome is a value or a fault (a null dereference, a join that cannot
      return).
    - The worker thread is a control state ([Worker]) plus one atomic step
      per scheduling of the thread ([worker_wake]): the lambda holds [mLock]
      everywhere except inside [mCond.wait], [mCond.wait_for] and the user
      callback, so what it does between two of these points is atomic for
      every other method.
    - The environment decides when the worker runs, when time passes and
      which status the HAL pushes ([Event]); a schedule is a list of events.
    - Log statements are not part of the model; the return values of
      [registerCallback], [linkToDeath] and [unlinkToDeath] only feed log
      statements and are dropped with them. *)

From Stdlib Require Import ZArith List Bool Lia.
Import ListNotations.
Local Open Scope Z_scope.

(** ** Types of the HIDL interfaces *)

(** [android::hardware::health::V1_0::BatteryStatus] *)
Module BatteryStatus.
Inductive t : Set := UNKNOWN | CHARGING | DISCHARGING | NOT_CHARGING | FULL.

Definition eqb (a b : t) : bool :=
  match a, b with
  | UNKNOWN, UNKNOWN | CHARGING, CHARGING | DISCHARGING, DISCHARGING
  | NOT_CHARGING, NOT_CHARGING | FULL, FULL => true
  | _, _ => false
  end.
End BatteryStatus.

(** [android::hardware::health::V2_0::Result] *)
Module Result.
Inductive t : Set := SUCCESS | NOT_SUPPORTED | UNKNOWN | NOT_FOUND | CALLBACK_DIED.
End Result.

(** [status_t] values the file returns ([OK] is [NO_ERROR]). *)
Inductive status_t : Set := NO_ERROR | NO_INIT | INVALID_OPERATION.
Definition OK : status_t := NO_ERROR.

(** The [HealthInfo] structs, reduced to the path the listener reads. *)
Module V1_0.
Record HealthInfo : Set := { batteryStatus : BatteryStatus.t }.
End V1_0.
Module V2_0.
Record HealthInfo : Set := { legacy : V1_0.HealthInfo }.
End V2_0.
Module V2_1.
Record HealthInfo : Set := { legacy : V2_0.HealthInfo }.
End V2_1.

(** A strong pointer to a remote interface is the identity of its binder;
    [None] is the null pointer. *)
Definition Handle : Set := nat.

(** The user callback [cb_fn_t] is known by its identity only. *)
Definition cb_fn_t : Set := nat.

Definition GET_HEALTH_SVC_RETRY_CNT : Z := 5.
Definition GET_HEALTH_SVC_WAIT_TIME_MS : Z := 500.

(** Length of the timed wait of the worker ([3s]), in milliseconds. *)
Definition NOT_CHARGING_WAIT_MS : Z := 3000.

(** ** Environment *)

(** What [getChargeStatus] can do: the transaction fails and the lambda is
    never called, or the lambda is called with a result and a status. *)
Inductive ChargeReply : Set :=
| TransactionError
| Reply (r : Result.t) (status : BatteryStatus.t).

(** Calls that leave the object, in program order. *)
Inductive Action : Set :=
| AGetService                              (* IHealth::getService() *)
| AUsleep (us : Z)                         (* usleep(us) *)
| AGetChargeStatus (h : Handle)
| AThreadStart                             (* std::make_unique<std::thread>(...) *)
| ARegisterCallback (h : Handle)
| ALinkToDeath (h : Handle)
| AUnregisterCallback (h : Handle)
| AUnlinkToDeath (h : Handle)
| ACallback (cb : cb_fn_t) (t : Z) (c : bool).   (* the user callback, called at time t *)

Record Env : Set := mkEnv {
  clock : Z;                                (* steady clock, in milliseconds *)
  svc_replies : list (option Handle);       (* results of the next calls of getService *)
  charge_replies : list ChargeReply;        (* results of the next calls of getChargeStatus *)
  junk_status : BatteryStatus.t;            (* what an uninitialised mStatus holds *)
  junk_done : bool;                         (* what an uninitialised mDone holds *)
  trace : list Action                       (* oldest first *)
}.

(** ** The object *)

(** Control state of the thread started at line 123. *)
Inductive Worker : Set :=
| AtStart                                              (* created, mLock not yet taken *)
| AtWait (local_status : BatteryStatus.t)              (* in mCond.wait(l), line 128 *)
| AtWaitFor (local_status : BatteryStatus.t) (deadline : Z)   (* in mCond.wait_for, line 145 *)
| InCallback (local_status : BatteryStatus.t)          (* in mCb(c), lock released, line 154 *)
| Exited.                                              (* the loop was left *)

Record BatteryListenerImpl : Set := mkImpl {
  mHealth : option Handle;
  mStatus : BatteryStatus.t;
  mCb : cb_fn_t;
  mThread : option Worker;
  mDone : bool
}.

Record World : Set := mkWorld { self : BatteryListenerImpl; env : Env }.

(** ** A state monad with faults *)

Inductive Fault : Set :=
| NullHealth          (* mHealth-> on a null mHealth *)
| NullThread          (* mThread-> on a null mThread *)
| NullListener        (* batteryListener-> on a null batteryListener *)
| JoinBlocked         (* join() on a thread that nothing wakes or stops *)
| OutOfFuel.

Inductive Res (A : Type) : Type :=
| Ok (a : A)
| Abort (f : Fault).
Arguments Ok {A} a.
Arguments Abort {A} f.

Definition M (S A : Type) : Type := S -> Res A * S.

Definition ret {S A : Type} (a : A) : M S A := fun s => (Ok a, s).

Definition bind {S A B : Type} (c : M S A) (k : A -> M S B) : M S B :=
  fun s => match c s with
           | (Ok a, s') => k a s'
           | (Abort f, s') => (Abort f, s')
           end.

Definition abort {S A : Type} (f : Fault) : M S A := fun s => (Abort f, s).

Declare Scope monad_scope.
Delimit Scope monad_scope with monad.
Notation "x <- c ;; k" := (bind c (fun x => k))
  (at level 61, c at next level, right associativity) : monad_scope.
Notation "c ;; k" := (bind c (fun _ => k))
  (at level 61, right associativity) : monad_scope.
Local Open Scope monad_scope.

Definition state_of {S A : Type} (r : Res A * S) : S := snd r.
Definition result_of {S A : Type} (r : Res A * S) : Res A := fst r.

(** *** Access to the object and to the environment *)

Definition this : M World BatteryListenerImpl := fun w => (Ok (self w), w).

Definition update (f : BatteryListenerImpl -> BatteryListenerImpl) : M World unit :=
  fun w => (Ok tt, mkWorld (f (self w)) (env w)).

Definition with_mHealth (h : option Handle) (o : BatteryListenerImpl) :=
  mkImpl h (mStatus o) (mCb o) (mThread o) (mDone o).
Definition with_mStatus (s : BatteryStatus.t) (o : BatteryListenerImpl) :=
  mkImpl (mHealth o) s (mCb o) (mThread o) (mDone o).
Definition with_mThread (t : option Worker) (o : BatteryListenerImpl) :=
  mkImpl (mHealth o) (mStatus o) (mCb o) t (mDone o).
Definition with_mDone (d : bool) (o : BatteryListenerImpl) :=
  mkImpl (mHealth o) (mStatus o) (mCb o) (mThread o) d.

Definition emit_env (a : Action) (e : Env) : Env :=
  mkEnv (clock e) (svc_replies e) (charge_replies e) (junk_status e) (junk_done e)
        (trace e ++ [a]).

Definition set_clock (t : Z) (e : Env) : Env :=
  mkEnv t (svc_replies e) (charge_replies e) (junk_status e) (junk_done e) (trace e).

Definition emit (a : Action) : M World unit :=
  fun w => (Ok tt, mkWorld (self w) (emit_env a (env w))).

Definition now : M World Z := fun w => (Ok (clock (env w)), w).

(** Time passes until the steady clock shows at least [t]. *)
Definition tick_to (t : Z) : M World unit :=
  fun w => (Ok tt, mkWorld (self w) (set_clock (Z.max (clock (env w)) t) (env w))).

(** [usleep(us)]: the caller is suspended for [us] microseconds. *)
Definition usleep (us : Z) : M World unit :=
  emit (AUsleep us) ;;
  fun w => (Ok tt, mkWorld (self w) (set_clock (clock (env w) + us / 1000) (env w))).

(** [IHealth::getService()]: the next reply of the service manager; when
    the replies are used up the service is not there. *)
Definition IHealth_getService : M World (option Handle) :=
  emit AGetService ;;
  fun w =>
    let e := env w in
    match svc_replies e with
    | [] => (Ok None, w)
    | r :: rest =>
        (Ok r, mkWorld (self w)
                 (mkEnv (clock e) rest (charge_replies e) (junk_status e) (junk_done e)
                        (trace e)))
    end.

(** [mHealth->getChargeStatus(...)]: when the replies are used up the
    transaction fails. *)
Definition IHealth_getChargeStatus (h : Handle) : M World ChargeReply :=
  emit (AGetChargeStatus h) ;;
  fun w =>
    let e := env w in
    match charge_replies e with
    | [] => (Ok TransactionError, w)
    | r :: rest =>
        (Ok r, mkWorld (self w)
                 (mkEnv (clock e) (svc_replies e) rest (junk_status e) (junk_done e)
                        (trace e)))
    end.

(** ** [BatteryListenerImpl] *)

(** Line 85. *)
Definition statusToBool (s : BatteryStatus.t) : bool :=
  BatteryStatus.eqb s BatteryStatus.CHARGING || BatteryStatus.eqb s BatteryStatus.FULL.

(** Lines 71-74. *)
Definition isCharging : M World bool :=
  o <- this ;; ret (statusToBool (mStatus o)).

(** *** The worker thread (lines 123-159) *)

(** The [default:] label, lines 151-156, up to the call of [mCb]. *)
Definition deliver (local_status : BatteryStatus.t) : M World Worker :=
  let c := statusToBool local_status in
  o <- this ;;
  t <- now ;;
  emit (ACallback (mCb o) t c) ;;
  ret (InCallback local_status).

(** One pass from the head of [while (!mDone)] with [mLock] held, up to
    the next point where the lock is released. On entering [wait_for] the
    predicate [mStatus != local_status] is false, [local_status] having
    just been copied from [mStatus] under the lock, so the thread blocks
    with a deadline three seconds ahead. *)
Definition loop_head (local_status : BatteryStatus.t) : M World Worker :=
  o <- this ;;
  if mDone o then ret Exited
  else if BatteryStatus.eqb local_status (mStatus o) then ret (AtWait local_status)
  else
    let local_status := mStatus o in
    match local_status with
    | BatteryStatus.NOT_CHARGING =>
        t <- now ;; ret (AtWaitFor local_status (t + NOT_CHARGING_WAIT_MS))
    | _ => deliver local_status
    end.

(** The thread is scheduled and takes [mLock].
    - [AtStart]: [local_status = mStatus], then the loop.
    - [AtWait]: [wait] returned, [continue].
    - [AtWaitFor]: [wait_for(l, 3s, p)] is [while (!p()) if (timed out)
      return p(); return true]. When [p()] holds line 146 breaks out of the
      switch; when the deadline has passed with [p()] false the code falls
      through to [default:]; otherwise the thread blocks again.
    - [InCallback]: [mCb] returned, [l.lock(); break]. *)
Definition worker_step (th : Worker) : M World Worker :=
  match th with
  | AtStart => o <- this ;; loop_head (mStatus o)
  | AtWait local_status => loop_head local_status
  | AtWaitFor local_status deadline =>
      o <- this ;;
      if negb (BatteryStatus.eqb (mStatus o) local_status) then loop_head local_status
      else
        t <- now ;;
        if deadline <=? t then deliver local_status
        else ret (AtWaitFor local_status deadline)
  | InCallback local_status => loop_head local_status
  | Exited => ret Exited
  end.

Definition worker_wake : M World unit :=
  o <- this ;;
  match mThread o with
  | None => ret tt
  | Some th => th' <- worker_step th ;; update (with_mThread (Some th'))
  end.

(** [mThread->join()]. [notified] tells whether [mCond.notify_one()] was
    called after [mDone] was set. A thread blocked in [mCond.wait] that was
    not notified and has no status change to see is not woken by anything in
    this file; a thread in the timed wait leaves it at its deadline at the
    latest and may then deliver the callback before it tests [mDone]. *)
Definition join (notified : bool) : M World unit :=
  o <- this ;;
  match mThread o with
  | None => abort NullThread
  | Some th =>
      match th with
      | AtWait l =>
          if negb notified && BatteryStatus.eqb l (mStatus o) then abort JoinBlocked
          else ret tt
      | AtWaitFor l d =>
          if BatteryStatus.eqb (mStatus o) l then tick_to d else ret tt
      | _ => ret tt
      end ;;
      worker_wake ;;
      worker_wake ;;
      o' <- this ;;
      match mThread o' with
      | Some Exited => ret tt
      | _ => abort JoinBlocked
      end
  end.

(** *** [init] (lines 90-172) *)

(** The [do ... while (tries < GET_HEALTH_SVC_RETRY_CNT)] loop, lines
    95-100; returns [tries]. *)
Fixpoint getService_loop (fuel : nat) (tries : Z) : M World Z :=
  match fuel with
  | O => abort OutOfFuel
  | S fuel' =>
      h <- IHealth_getService ;;
      update (with_mHealth h) ;;
      match h with
      | Some _ => ret tries
      | None =>
          usleep (GET_HEALTH_SVC_WAIT_TIME_MS * 1000) ;;
          let tries := tries + 1 in
          if tries <? GET_HEALTH_SVC_RETRY_CNT then getService_loop fuel' tries
          else ret tries
      end
  end.

Definition init : M World status_t :=
  o <- this ;;
  match mHealth o with
  | Some _ => ret INVALID_OPERATION
  | None =>
      _ <- getService_loop (Z.to_nat GET_HEALTH_SVC_RETRY_CNT) 0 ;;
      o <- this ;;
      match mHealth o with
      | None => ret NO_INIT
      | Some h =>
          update (with_mStatus BatteryStatus.UNKNOWN) ;;
          r <- IHealth_getChargeStatus h ;;
          match r with
          | Reply Result.SUCCESS status => update (with_mStatus status)
          | _ => ret tt
          end ;;
          update (with_mDone false) ;;
          emit AThreadStart ;;
          update (with_mThread (Some AtStart)) ;;
          emit (ARegisterCallback h) ;;
          emit (ALinkToDeath h) ;;
          ret NO_ERROR
      end
  end.

(** *** Destructor (lines 178-190) *)

Definition destroy : M World unit :=
  o <- this ;;
  match mHealth o with
  | Some h => emit (AUnregisterCallback h)
  | None => ret tt
  end ;;
  match mHealth o with
  | Some h => emit (AUnlinkToDeath h)
  | None => abort NullHealth
  end ;;
  update (with_mDone true) ;;
  join false.

(** *** [healthInfoChanged] (lines 215-231) *)

Definition healthInfoChanged (info : V2_0.HealthInfo) : M World unit :=
  o <- this ;;
  let s := V1_0.batteryStatus (V2_0.legacy info) in
  if negb (BatteryStatus.eqb s (mStatus o)) then update (with_mStatus s)
  else ret tt.

Definition healthInfoChanged_2_1 (info : V2_1.HealthInfo) : M World unit :=
  healthInfoChanged (V2_1.legacy info).

(** *** [serviceDied] (lines 192-208) *)

Section ServiceDied.

(** [android::hardware::interfacesEqual] belongs to libhidl. *)
Variable interfacesEqual : option Handle -> option Handle -> bool.

(** [who] is the result of [who.promote()]. *)
Definition serviceDied (who : option Handle) : M World unit :=
  o <- this ;;
  if match mHealth o with None => true | Some _ => false end
     || negb (interfacesEqual (mHealth o) who)
  then ret tt
  else
    update (with_mDone true) ;;
    update (with_mHealth None) ;;
    join true ;;
    _ <- init ;;
    ret tt.

End ServiceDied.

(** Binder identity, what [interfacesEqual] computes for remote interfaces
    and for null pointers. *)
Definition same_binder (l r : option Handle) : bool :=
  match l, r with
  | Some a, Some b => Nat.eqb a b
  | None, None => true
  | _, _ => false
  end.

(** ** Schedules *)

(** What happens to a listener between [init] and its teardown. *)
Inductive Event : Set :=
| Tick (t : Z)                          (* the steady clock reaches t *)
| Wake                                  (* the worker thread is scheduled *)
| Push (info : V2_0.HealthInfo)         (* the HAL calls healthInfoChanged *)
| Push_2_1 (info : V2_1.HealthInfo).    (* the HAL calls healthInfoChanged_2_1 *)

Definition step (e : Event) : M World unit :=
  match e with
  | Tick t => tick_to t
  | Wake => worker_wake
  | Push info => healthInfoChanged info
  | Push_2_1 info => healthInfoChanged_2_1 info
  end.

Fixpoint run (evs : list Event) : M World unit :=
  match evs with
  | [] => ret tt
  | e :: rest => step e ;; run rest
  end.

(** The HAL reports the status [s]. *)
Definition info_of (s : BatteryStatus.t) : V2_0.HealthInfo :=
  {| V2_0.legacy := {| V1_0.batteryStatus := s |} |}.

Definition push (s : BatteryStatus.t) : Event := Push (info_of s).

(** ** The process-wide facade (lines 55, 233-273) *)

(** [detached] holds the threads [t1] that were created and detached and
    have not run yet, each with the callback it was given. *)
Record Process : Set := mkProcess {
  sIsBatteryListened : bool;
  batteryListener : option BatteryListenerImpl;
  detached : list cb_fn_t;
  penv : Env
}.

(** A method [m] called on the object [o]; gives the result and the object
    after the call. *)
Definition call_on {A : Type} (o : BatteryListenerImpl) (m : M World A)
  : M Process (A * BatteryListenerImpl) :=
  fun p =>
    let (r, w) := m (mkWorld o (penv p)) in
    let p' := mkProcess (sIsBatteryListened p) (batteryListener p) (detached p) (env w) in
    match r with
    | Ok a => (Ok (a, self w), p')
    | Abort f => (Abort f, p')
    end.

(** [batteryListener->m()]. *)
Definition with_listener {A : Type} (m : M World A) : M Process A :=
  fun p =>
    match batteryListener p with
    | None => (Abort NullListener, p)
    | Some o =>
        let (r, w) := m (mkWorld o (penv p)) in
        (r, mkProcess (sIsBatteryListened p) (Some (self w)) (detached p) (env w))
    end.

(** What the other threads (the HAL's push thread, the worker, the clock)
    do to the installed listener while the calling thread is between two
    statements. *)
Definition meanwhile (evs : list Event) : M Process unit :=
  with_listener (run evs).

(** The constructor, lines 174-176: [mCb] is initialised, [mHealth] and
    [mThread] are null, [mStatus] and [mDone] hold whatever the memory
    holds, and the result of [init()] is dropped. *)
Definition construct (cb : cb_fn_t) : M Process BatteryListenerImpl :=
  fun p =>
    let e := penv p in
    let o := mkImpl None (junk_status e) cb None (junk_done e) in
    (r <- call_on o init ;; ret (snd r)) p.

(** Assignment to the global [sp<BatteryListenerImpl>]; the global holds
    the only strong reference, so the object it pointed to is destroyed. *)
Definition set_batteryListener (n : option BatteryListenerImpl) : M Process unit :=
  fun p =>
    let drop : M Process unit :=
      match batteryListener p with
      | Some old => (_ <- call_on old destroy ;; ret tt)
      | None => ret tt
      end in
    (drop ;;
     fun p' => (Ok tt, mkProcess (sIsBatteryListened p') n (detached p') (penv p'))) p.

(** Lines 235-237. *)
Definition batteryPropertiesListenerIsCharging : M Process bool :=
  with_listener isCharging.

(** Lines 239-248. The function takes no lock of its own: [gap1] is what
    the other threads do between the assignment of line 240 and the read
    of line 241, [gap2] what they do between that read and the call of
    line 245. *)
Definition batteryPropertiesListenerInit (cb : cb_fn_t) (gap1 gap2 : list Event)
  : M Process status_t :=
  o <- construct cb ;;
  set_batteryListener (Some o) ;;
  meanwhile gap1 ;;
  isCharging <- batteryPropertiesListenerIsCharging ;;
  meanwhile gap2 ;;
  (if isCharging : bool
   then fun p =>
          (Ok tt, mkProcess (sIsBatteryListened p) (batteryListener p) (detached p)
                    (emit_env (ACallback cb (clock (penv p)) isCharging) (penv p)))
   else ret tt) ;;
  ret NO_ERROR.

(** Lines 250-253. *)
Definition batteryPropertiesListenerDeinit : M Process status_t :=
  set_batteryListener None ;;
  ret OK.

(** Lines 257-265: the thread [t1] is created and detached, the flag is
    set, and the function returns; [t1] has not run yet. *)
Definition loc_extn_battery_properties_listener_init (fn : cb_fn_t) : M Process unit :=
  fun p =>
    if negb (sIsBatteryListened p) then
      (Ok tt, mkProcess true (batteryListener p) (detached p ++ [fn]) (penv p))
    else (Ok tt, p).

(** The oldest detached thread [t1] runs [batteryPropertiesListenerInit]
    (line 260) to its end and drops the result; [gap1] and [gap2] are the
    gaps of that function. *)
Definition t1 (gap1 gap2 : list Event) : M Process unit :=
  fun p =>
    match detached p with
    | [] => (Ok tt, p)
    | fn :: rest =>
        (_ <- batteryPropertiesListenerInit fn gap1 gap2 ;; ret tt)
          (mkProcess (sIsBatteryListened p) (batteryListener p) rest (penv p))
    end.

(** Lines 267-269. *)
Definition loc_extn_battery_properties_listener_deinit : M Process unit :=
  _ <- batteryPropertiesListenerDeinit ;; ret tt.

(** Lines 271-273. *)
Definition loc_extn_battery_properties_is_charging : M Process bool :=
  batteryPropertiesListenerIsCharging.

(** ** Traces and example states *)

(** The calls of the user callback in a trace: time and value. *)
Definition callbacks (tr : list Action) : list (Z * bool) :=
  flat_map (fun a => match a with ACallback _ t c => [(t, c)] | _ => [] end) tr.

(** The calls of [getService] in a trace. *)
Definition lookups (tr : list Action) : nat :=
  length (filter (fun a => match a with AGetService => true | _ => false end) tr).


(** A listener whose link is up: handle [h], last stored status [s],
    worker in control state [th]. *)
Definition linked (h : Handle) (cb : cb_fn_t) (s : BatteryStatus.t) (th : Worker)
  : BatteryListenerImpl :=
  mkImpl (Some h) s cb (Some th) false.

(** An environment at time [t] with nothing recorded yet. *)
Definition quiet_env (t : Z) : Env :=
  mkEnv t [] [] BatteryStatus.UNKNOWN false [].

(** ** Notions used by the statements *)

(** The handle the acquisition loop ends with: the first handle among the
    next [n] replies of the service manager. *)
Fixpoint first_handle (n : nat) (l : list (option Handle)) : option Handle :=
  match n, l with
  | S _, Some h :: _ => Some h
  | S n', None :: rest => first_handle n' rest
  | _, _ => None
  end.

(** [k] failed attempts, each followed by its sleep. *)
Definition attempts (k : nat) : list Action :=
  concat (repeat [AGetService; AUsleep (GET_HEALTH_SVC_WAIT_TIME_MS * 1000)] k).

(** The status [init] stores, lines 108-115. *)
Definition initial_status (l : list ChargeReply) : BatteryStatus.t :=
  match l with
  | Reply Result.SUCCESS status :: _ => status
  | _ => BatteryStatus.UNKNOWN
  end.

(** An event that leaves a timed wait on NOT_CHARGING with deadline [D]
    open: the worker may run, time may pass short of [D], the HAL may
    repeat NOT_CHARGING. *)
Definition quiet (D : Z) (e : Event) : bool :=
  match e with
  | Tick t => t <? D
  | Wake => true
  | Push info =>
      BatteryStatus.eqb (V1_0.batteryStatus (V2_0.legacy info)) BatteryStatus.NOT_CHARGING
  | Push_2_1 info =>
      BatteryStatus.eqb (V1_0.batteryStatus (V2_0.legacy (V2_1.legacy info)))
                        BatteryStatus.NOT_CHARGING
  end.

(** The worker has seen the status [l] last and is not in the timed wait. *)
Definition settled (l : BatteryStatus.t) (th : Worker) : Prop :=
  th = AtWait l \/ th = InCallback l.




(** A listener just linked at time 0 with stored status [s]. *)
Definition fresh_world (s : BatteryStatus.t) : World :=
  mkWorld (linked 1%nat 2%nat s AtStart) (quiet_env 0).

(** The worker of the listener ([h], [cb]) is in the timed wait on
    NOT_CHARGING with deadline [D], the stored status is NOT_CHARGING, the
    clock is short of [D] and the trace is [tr]. *)
Definition grace_open (h : Handle) (cb : cb_fn_t) (D : Z) (tr : list Action)
           (w : World) : Prop :=
  self w = linked h cb BatteryStatus.NOT_CHARGING
                  (AtWaitFor BatteryStatus.NOT_CHARGING D)
  /\ trace (env w) = tr
  /\ clock (env w) < D.

(** An event that does not change a stored status [s]. *)
Definition keeps_status (s : BatteryStatus.t) (e : Event) : bool :=
  match e with
  | Push info => BatteryStatus.eqb (V1_0.batteryStatus (V2_0.legacy info)) s
  | Push_2_1 info =>
      BatteryStatus.eqb (V1_0.batteryStatus (V2_0.legacy (V2_1.legacy info))) s
  | _ => true
  end.

(** The worker of the listener ([h], [cb]) has caught up with the stored
    status [s] and the trace is [tr]. *)
Definition caught_up (h : Handle) (cb : cb_fn_t) (s : BatteryStatus.t)
           (tr : list Action) (w : World) : Prop :=
  (exists th, settled s th /\ self w = linked h cb s th) /\ trace (env w) = tr.

(** What [init] does after it has got the handle [h], lines 108-171. *)
Definition link_actions (h : Handle) : list Action :=
  [AGetChargeStatus h; AThreadStart; ARegisterCallback h; ALinkToDeath h].

(** The object a constructor starts [init] on. *)
Definition blank (cb : cb_fn_t) (e : Env) : BatteryListenerImpl :=
  mkImpl None (junk_status e) cb None (junk_done e).

(** A process that has not started the listener, the health service
    answering the second lookup with handle 3 and status [s]. *)
Definition booting (s : BatteryStatus.t) : Process :=
  mkProcess false None []
    (mkEnv 0 [None; Some 3%nat] [Reply Result.SUCCESS s] BatteryStatus.UNKNOWN true []).

(** A process that has not started the listener, on a device whose health
    service never shows up. *)
Definition stranded : Process :=
  mkProcess false None [] (mkEnv 0 [] [] BatteryStatus.UNKNOWN false []).

(** The status an event pushes, when it is a push. *)
Definition pushed (e : Event) : option BatteryStatus.t :=
  match e with
  | Push info => Some (V1_0.batteryStatus (V2_0.legacy info))
  | Push_2_1 info => Some (V1_0.batteryStatus (V2_0.legacy (V2_1.legacy info)))
  | _ => None
  end.

(** How many times a schedule changes a store that holds [s]. *)
Fixpoint changes (s : BatteryStatus.t) (evs : list Event) : nat :=
  match evs with
  | [] => O
  | e :: rest =>
      match pushed e with
      | Some s' => if BatteryStatus.eqb s' s then changes s rest else S (changes s' rest)
      | None => changes s rest
      end
  end.

(** 1 when the worker can still call back without a further change of the
    store: it lags behind the stored status or it is in the timed wait. *)
Definition pending (w : World) : nat :=
  match mThread (self w) with
  | Some (AtWait l) | Some (InCallback l) =>
      if BatteryStatus.eqb l (mStatus (self w)) then O else 1%nat
  | Some (AtWaitFor _ _) => 1%nat
  | _ => O
  end.

(** The worker has nothing to report about the stored status [s]: it has
    not run yet, it saw [s] last, or it has left its loop. *)
Definition at_rest (s : BatteryStatus.t) (th : Worker) : Prop :=
  th = AtStart \/ th = AtWait s \/ th = InCallback s \/ th = Exited.

(** The worker is blocked in [mCond.wait] with nothing new to see. *)
Definition idle (s : BatteryStatus.t) (th : Worker) : bool :=
  match th with
  | AtWait l => BatteryStatus.eqb l s
  | _ => false
  end.

(** What a worker in control state [th] still delivers when it is stopped
    at time [t] and joined, the stored status being [s]: the call of an
    unchanged timed wait, at its deadline. *)
Definition last_words (cb : cb_fn_t) (s : BatteryStatus.t) (t : Z) (th : Worker)
  : list Action :=
  match th with
  | AtWaitFor l d =>
      if BatteryStatus.eqb s l then [ACallback cb (Z.max t d) (statusToBool l)] else []
  | _ => []
  end.


(** The worker, if there is one, has nothing to report about [s]. *)
Definition worker_at_rest (s : BatteryStatus.t) (w : World) : Prop :=
  mStatus (self w) = s
  /\ match mThread (self w) with
     | Some th => at_rest s th
     | None => True
     end.

(** The worker of the listener ([h], [cb]) is in the timed wait on
    NOT_CHARGING with deadline [D], the stored status is NOT_CHARGING and
    the trace is [tr]. *)
Definition in_timed_wait (h : Handle) (cb : cb_fn_t) (D : Z) (tr : list Action)
           (w : World) : Prop :=
  self w = linked h cb BatteryStatus.NOT_CHARGING
                  (AtWaitFor BatteryStatus.NOT_CHARGING D)
  /\ trace (env w) = tr.

(** [batteryPropertiesListenerInit] up to its read of line 241: the
    constructor, the assignment, and what the other threads do before the
    read. *)
Definition facade_init_to_read (cb : cb_fn_t) (gap1 : list Event) : M Process unit :=
  o <- construct cb ;;
  set_batteryListener (Some o) ;;
  meanwhile gap1.

(** The status the installed listener holds. *)
Definition stored_status (p : Process) : option BatteryStatus.t :=
  option_map mStatus (batteryListener p).

(** The immediate call of line 245 for a status read at line 241. *)
Definition immediate_call (cb : cb_fn_t) (t : Z) (s : option BatteryStatus.t)
  : list Action :=
  match s with
  | Some BatteryStatus.CHARGING | Some BatteryStatus.FULL => [ACallback cb t true]
  | _ => []
  end.

(** ** Basic facts *)

Lemma BatteryStatus_eqb_spec (a b : BatteryStatus.t) :
  reflect (a = b) (BatteryStatus.eqb a b).
Proof. destruct a, b; constructor; congruence. Qed.

Lemma BatteryStatus_eqb_refl (a : BatteryStatus.t) : BatteryStatus.eqb a a = true.
Proof. now destruct a. Qed.


Lemma callbacks_app (l1 l2 : list Action) :
  callbacks (l1 ++ l2) = callbacks l1 ++ callbacks l2.
Proof. unfold callbacks. now rewrite flat_map_app. Qed.

(** Unfolds the monad and the accessors of the state. *)
Ltac run_monad :=
  cbv [bind ret abort this update emit now tick_to usleep state_of result_of
       with_mHealth with_mStatus with_mThread with_mDone emit_env set_clock];
  cbn [fst snd self env mHealth mStatus mCb mThread mDone
       clock svc_replies charge_replies junk_status junk_done trace].

(** Splits on the first test or match of the goal. *)
Ltac split_head :=
  match goal with
  | |- context [if ?b then _ else _] => destruct b eqn:?
  | |- context [match ?x with _ => _ end] => destruct x eqn:?
  end.

Lemma deliver_eq (l : BatteryStatus.t) (w : World) :
  deliver l w =
  (Ok (InCallback l),
   mkWorld (self w)
     (emit_env (ACallback (mCb (self w)) (clock (env w)) (statusToBool l)) (env w))).
Proof. reflexivity. Qed.

Lemma loop_head_eq (l : BatteryStatus.t) (w : World) :
  loop_head l w =
  if mDone (self w) then (Ok Exited, w)
  else if BatteryStatus.eqb l (mStatus (self w)) then (Ok (AtWait l), w)
  else match mStatus (self w) with
       | BatteryStatus.NOT_CHARGING =>
           (Ok (AtWaitFor BatteryStatus.NOT_CHARGING
                  (clock (env w) + NOT_CHARGING_WAIT_MS)), w)
       | s => deliver s w
       end.
Proof.
  unfold loop_head; run_monad.
  destruct (mDone (self w)); [reflexivity|].
  destruct (BatteryStatus.eqb l (mStatus (self w))); [reflexivity|].
  destruct (mStatus (self w)); reflexivity.
Qed.

Lemma loop_head_total (l : BatteryStatus.t) (w : World) :
  exists th w', loop_head l w = (Ok th, w').
Proof.
  rewrite loop_head_eq.
  destruct (mDone (self w)); [eauto|].
  destruct (BatteryStatus.eqb l (mStatus (self w))); [eauto|].
  destruct (mStatus (self w)); rewrite ?deliver_eq; eauto.
Qed.

Lemma worker_step_total (th : Worker) (w : World) :
  exists th' w', worker_step th w = (Ok th', w').
Proof.
  destruct th; cbn [worker_step]; run_monad;
    try apply loop_head_total; [|eauto].
  destruct (negb _); [apply loop_head_total|].
  destruct (_ <=? _); [rewrite deliver_eq|]; eauto.
Qed.

Lemma worker_wake_eq (w : World) :
  worker_wake w =
  match mThread (self w) with
  | None => (Ok tt, w)
  | Some th =>
      let r := worker_step th w in
      match result_of r with
      | Ok th' => (Ok tt, mkWorld (with_mThread (Some th') (self (state_of r)))
                            (env (state_of r)))
      | Abort f => (Abort f, state_of r)
      end
  end.
Proof.
  unfold worker_wake; run_monad.
  destruct (mThread (self w)) as [th|]; [|reflexivity].
  run_monad. destruct (worker_step th w) as [[th'|f] w']; reflexivity.
Qed.

Lemma worker_wake_total (w : World) : exists w', worker_wake w = (Ok tt, w').
Proof.
  rewrite worker_wake_eq. destruct (mThread (self w)) as [th|]; [|eauto].
  destruct (worker_step_total th w) as (th' & w' & ->). cbn. eauto.
Qed.

Lemma step_total (e : Event) (w : World) : exists w', step e w = (Ok tt, w').
Proof.
  destruct e; cbn [step].
  - unfold tick_to; eauto.
  - apply worker_wake_total.
  - unfold healthInfoChanged; run_monad; split_head; eauto.
  - unfold healthInfoChanged_2_1, healthInfoChanged; run_monad; split_head; eauto.
Qed.

Lemma run_cons (e : Event) (evs : list Event) (w : World) :
  run (e :: evs) w = run evs (state_of (step e w)).
Proof.
  cbn [run]. unfold bind. destruct (step_total e w) as [w' ->]. reflexivity.
Qed.

Lemma run_total (evs : list Event) (w : World) : exists w', run evs w = (Ok tt, w').
Proof.
  revert w; induction evs as [|e evs IH]; intros w.
  - cbn; unfold ret; eauto.
  - rewrite run_cons. apply IH.
Qed.

Lemma run_app (a b : list Event) (w : World) :
  run (a ++ b) w = run b (state_of (run a w)).
Proof.
  revert w; induction a as [|e a IH]; intros w.
  - reflexivity.
  - rewrite <- app_comm_cons, !run_cons. apply IH.
Qed.

(** ** The debounce worker *)

Lemma loop_head_trace (l : BatteryStatus.t) (w : World) :
  let r := loop_head l w in
  self (state_of r) = self w /\
  clock (env (state_of r)) = clock (env w) /\
  (trace (env (state_of r)) = trace (env w)
   \/ (l <> mStatus (self w) /\ mStatus (self w) <> BatteryStatus.NOT_CHARGING /\
       trace (env (state_of r)) =
       trace (env w) ++ [ACallback (mCb (self w)) (clock (env w))
                                   (statusToBool (mStatus (self w)))])).
Proof.
  cbv zeta. rewrite loop_head_eq.
  destruct (mDone (self w)); [cbn; auto|].
  destruct (BatteryStatus_eqb_spec l (mStatus (self w))) as [|ne]; [cbn; auto|].
  destruct (mStatus (self w)) eqn:Es; rewrite ?deliver_eq; cbn;
    first [ now auto
          | split; [reflexivity|]; split; [reflexivity|]; right;
            split; [exact ne|]; split; [discriminate|reflexivity] ].
Qed.













Lemma worker_step_self (th : Worker) (w : World) :
  self (state_of (worker_step th w)) = self w.
Proof.
  destruct th; cbn [worker_step]; run_monad;
    try apply loop_head_trace; [|reflexivity].
  destruct (negb _); [apply loop_head_trace|].
  destruct (_ <=? _); reflexivity.
Qed.

Lemma worker_wake_mStatus (w : World) :
  mStatus (self (state_of (worker_wake w))) = mStatus (self w).
Proof.
  rewrite worker_wake_eq. destruct (mThread (self w)) as [th|]; [|reflexivity].
  destruct (worker_step_total th w) as (th' & w' & E).
  pose proof (worker_step_self th w) as H. rewrite E in *. cbn in *. now rewrite H.
Qed.

(** Claim C2, as the code has it: [isCharging] reads the raw slot [mStatus]
    and changes nothing; right after a push it answers for the pushed
    status, and no step of the worker changes its answer. *)
Theorem isCharging_reads_raw_status :
  forall (w : World),
    isCharging w = (Ok (statusToBool (mStatus (self w))), w)
    /\ (forall (info : V2_0.HealthInfo),
          result_of (isCharging (state_of (healthInfoChanged info w)))
          = Ok (statusToBool (V1_0.batteryStatus (V2_0.legacy info))))
    /\ result_of (isCharging (state_of (worker_wake w))) = result_of (isCharging w).
Proof.
  intros w; split; [reflexivity|]. split.
  - intros info. unfold healthInfoChanged, isCharging; run_monad.
    destruct (BatteryStatus_eqb_spec (V1_0.batteryStatus (V2_0.legacy info))
                (mStatus (self w))) as [->|ne]; reflexivity.
  - pose proof (worker_wake_mStatus w) as H.
    destruct (worker_wake w) as [r w']. cbn in H |- *. now rewrite H.
Qed.

(** Claim C2, as stated, fails: after CHARGING was delivered and
    NOT_CHARGING was pushed, the last call of the callback carried [true]
    and the worker is still in its timed wait, yet [isCharging] answers
    [false]. *)
Lemma isCharging_differs_from_last_callback :
  let w := state_of (run [Wake; push BatteryStatus.CHARGING; Wake; Wake;
                          push BatteryStatus.NOT_CHARGING; Wake]
                         (fresh_world BatteryStatus.UNKNOWN)) in
  last (map snd (callbacks (trace (env w)))) false = true
  /\ result_of (isCharging w) = Ok false.
Proof. split; reflexivity. Qed.

(** *** The timed wait on NOT_CHARGING *)

Lemma step_grace_open (h : Handle) (cb : cb_fn_t) (D : Z) (tr : list Action)
      (e : Event) (w : World) :
  grace_open h cb D tr w -> quiet D e = true ->
  grace_open h cb D tr (state_of (step e w)).
Proof.
  unfold grace_open. destruct w as [o en]; cbn [self env].
  intros (-> & <- & Hc) Hq. destruct e; cbn [step quiet] in *.
  - unfold tick_to; cbn. apply Z.ltb_lt in Hq. repeat split; lia.
  - rewrite worker_wake_eq; cbn. run_monad.
    destruct (Z.leb_spec D (clock en)); [lia|]. cbn. auto.
  - unfold healthInfoChanged; run_monad. cbn. rewrite Hq. cbn. auto.
  - unfold healthInfoChanged_2_1, healthInfoChanged; run_monad. cbn.
    rewrite Hq. cbn. auto.
Qed.

Lemma run_grace_open (h : Handle) (cb : cb_fn_t) (D : Z) (tr : list Action)
      (mid : list Event) (w : World) :
  grace_open h cb D tr w -> forallb (quiet D) mid = true ->
  grace_open h cb D tr (state_of (run mid w)).
Proof.
  revert w; induction mid as [|e mid IH]; intros w Hw Hq.
  - exact Hw.
  - cbn [forallb] in Hq. apply andb_true_iff in Hq as [He Hq].
    rewrite run_cons. apply IH; [apply step_grace_open|]; assumption.
Qed.

(** A worker that saw a status [l] other than NOT_CHARGING last (the
    stored status [s] may be ahead of it) sees NOT_CHARGING arrive: it
    enters the timed wait and delivers nothing. *)
Lemma enter_grace (h : Handle) (cb : cb_fn_t) (l s : BatteryStatus.t) (th : Worker)
      (e0 : Env) (t1 : Z) :
  settled l th -> l <> BatteryStatus.NOT_CHARGING ->
  grace_open h cb (Z.max (clock e0) t1 + NOT_CHARGING_WAIT_MS) (trace e0)
    (state_of (run [push BatteryStatus.NOT_CHARGING; Tick t1; Wake]
                   (mkWorld (linked h cb s th) e0))).
Proof.
  intros Hl Hne. unfold grace_open.
  destruct Hl as [-> | ->]; destruct l; try congruence; destruct s; cbn;
    unfold NOT_CHARGING_WAIT_MS; repeat split; lia.
Qed.

(** Without a change of the stored status a worker that has caught up
    delivers nothing. *)
Lemma step_caught_up (h : Handle) (cb : cb_fn_t) (s : BatteryStatus.t)
      (tr : list Action) (e : Event) (w : World) :
  caught_up h cb s tr w -> keeps_status s e = true ->
  caught_up h cb s tr (state_of (step e w)).
Proof.
  unfold caught_up, settled. destruct w as [o en]; cbn [self env].
  intros [(th & Hth & ->) <-] Hk. destruct e; cbn [step keeps_status] in *.
  - unfold tick_to; cbn. eauto.
  - rewrite worker_wake_eq; cbn.
    assert (E : worker_step th (mkWorld (linked h cb s th) en)
                = (Ok (AtWait s), mkWorld (linked h cb s th) en)).
    { destruct Hth as [-> | ->]; cbn [worker_step]; rewrite loop_head_eq; cbn;
        now rewrite BatteryStatus_eqb_refl. }
    rewrite E; cbn. split; [|reflexivity]. exists (AtWait s). auto.
  - unfold healthInfoChanged; run_monad. cbn. rewrite Hk. cbn. eauto.
  - unfold healthInfoChanged_2_1, healthInfoChanged; run_monad. cbn.
    rewrite Hk. cbn. eauto.
Qed.

Lemma run_caught_up (h : Handle) (cb : cb_fn_t) (s : BatteryStatus.t)
      (tr : list Action) (evs : list Event) (w : World) :
  caught_up h cb s tr w -> forallb (keeps_status s) evs = true ->
  caught_up h cb s tr (state_of (run evs w)).
Proof.
  revert w; induction evs as [|e evs IH]; intros w Hw Hk.
  - exact Hw.
  - cbn [forallb] in Hk. apply andb_true_iff in Hk as [He Hk].
    rewrite run_cons. apply IH; [apply step_caught_up|]; assumption.
Qed.

(** Claim C3, as the code has it. The worker has caught up with CHARGING;
    NOT_CHARGING is pushed and the worker enters its timed wait (deadline
    [D], three seconds after it ran); while the wait is open nothing is
    delivered; CHARGING is pushed back before the worker has timed out.
    The NOT_CHARGING value is never delivered, and the next scheduling of
    the worker delivers the returning CHARGING value: one call, with
    [true]. *)
Theorem reverted_not_charging_delivers_true :
  forall (h : Handle) (cb : cb_fn_t) (th : Worker) (e0 : Env) (t1 t3 : Z)
         (mid : list Event),
    settled BatteryStatus.CHARGING th ->
    forallb (quiet (Z.max (clock e0) t1 + NOT_CHARGING_WAIT_MS)) mid = true ->
    let w1 := state_of (run ([push BatteryStatus.NOT_CHARGING; Tick t1; Wake] ++ mid)
                            (mkWorld (linked h cb BatteryStatus.CHARGING th) e0)) in
    let w2 := state_of (run [push BatteryStatus.CHARGING; Tick t3; Wake] w1) in
    trace (env w1) = trace e0
    /\ trace (env w2) = trace e0 ++ [ACallback cb (clock (env w2)) true].
Proof.
  intros h cb th e0 t1 t3 mid Hth Hq w1 w2.
  assert (G : grace_open h cb (Z.max (clock e0) t1 + NOT_CHARGING_WAIT_MS)
                (trace e0) w1).
  { subst w1. rewrite run_app. apply run_grace_open; [|exact Hq].
    apply (enter_grace h cb BatteryStatus.CHARGING); [exact Hth|discriminate]. }
  subst w2. destruct w1 as [o en]. destruct G as (Ho & Ht & Hc).
  cbn [self env] in *. subst o. split; [exact Ht|].
  rewrite <- Ht. reflexivity.
Qed.

Lemma reverted_not_charging_delivers_true_witness :
  settled BatteryStatus.CHARGING (AtWait BatteryStatus.CHARGING)
  /\ forallb (quiet (Z.max 0 0 + NOT_CHARGING_WAIT_MS)) [Wake; Tick 1000] = true
  /\ trace (env (state_of
        (run [push BatteryStatus.CHARGING; Tick 1200; Wake]
           (state_of
              (run ([push BatteryStatus.NOT_CHARGING; Tick 0; Wake] ++ [Wake; Tick 1000])
                 (mkWorld (linked 1%nat 2%nat BatteryStatus.CHARGING
                                  (AtWait BatteryStatus.CHARGING))
                          (quiet_env 0)))))))
     = [ACallback 2%nat 1200 true].
Proof.
  split; [left; reflexivity|]. split; [reflexivity|].
  apply (reverted_not_charging_delivers_true 1%nat 2%nat
           (AtWait BatteryStatus.CHARGING) (quiet_env 0) 0 1200 [Wake; Tick 1000]).
  - left; reflexivity.
  - reflexivity.
Defined.

(** Claim C3, as stated, fails: CHARGING, NOT_CHARGING, and CHARGING again
    one second later end with one call of the callback, not with none. *)
Lemma blip_is_followed_by_a_callback :
  let w := state_of (run [Wake; push BatteryStatus.NOT_CHARGING; Wake; Tick 1000;
                          push BatteryStatus.CHARGING; Wake]
                         (fresh_world BatteryStatus.CHARGING)) in
  callbacks (trace (env w)) = [(1000, true)]
  /\ callbacks (trace (env w)) <> [].
Proof. split; [reflexivity|discriminate]. Qed.

Lemma step_in_timed_wait (h : Handle) (cb : cb_fn_t) (D : Z) (tr : list Action)
      (e : Event) (w : World) :
  in_timed_wait h cb D tr w ->
  keeps_status BatteryStatus.NOT_CHARGING e = true ->
  in_timed_wait h cb D tr (state_of (step e w))
  \/ exists t : Z,
       D <= t
       /\ caught_up h cb BatteryStatus.NOT_CHARGING (tr ++ [ACallback cb t false])
                    (state_of (step e w)).
Proof.
  unfold in_timed_wait, caught_up. destruct w as [o en]; cbn [self env].
  intros (-> & <-) Hk. destruct e; cbn [step keeps_status] in *.
  - left. unfold tick_to; cbn. auto.
  - rewrite worker_wake_eq; cbn. run_monad.
    destruct (Z.leb_spec D (clock en)); cbn; [right|left; auto].
    exists (clock en). split; [assumption|]. split; [|reflexivity].
    exists (InCallback BatteryStatus.NOT_CHARGING). split; [right|]; reflexivity.
  - left. unfold healthInfoChanged; run_monad. cbn. rewrite Hk. cbn. auto.
  - left. unfold healthInfoChanged_2_1, healthInfoChanged; run_monad. cbn.
    rewrite Hk. cbn. auto.
Qed.

Lemma run_in_timed_wait (h : Handle) (cb : cb_fn_t) (D : Z) (tr : list Action)
      (evs : list Event) (w : World) :
  in_timed_wait h cb D tr w ->
  forallb (keeps_status BatteryStatus.NOT_CHARGING) evs = true ->
  in_timed_wait h cb D tr (state_of (run evs w))
  \/ exists t : Z,
       D <= t
       /\ caught_up h cb BatteryStatus.NOT_CHARGING (tr ++ [ACallback cb t false])
                    (state_of (run evs w)).
Proof.
  revert w; induction evs as [|e evs IH]; intros w Hw Hk; [left; exact Hw|].
  cbn [forallb] in Hk. apply andb_true_iff in Hk as [He Hk]. rewrite run_cons.
  destruct (step_in_timed_wait h cb D tr e w Hw He) as [H|(t & Ht & H)].
  - apply IH; assumption.
  - right. exists t. split; [exact Ht|]. apply run_caught_up; assumption.
Qed.

(** Claim C6, as the code has it. The worker saw a status [l] other than
    NOT_CHARGING last; NOT_CHARGING is pushed at time [clock e0] and the
    worker, scheduled next, enters its timed wait, whose deadline [D] is
    three seconds after that scheduling; afterwards the HAL only repeats
    NOT_CHARGING, while the worker runs and time passes in any way.
    - At every point of such a run either nothing has been delivered, or
      exactly one call, with [false], at a time no earlier than [D].
    - Once the worker has been scheduled at a time at or past [D], that
      one call has been delivered. *)
Theorem persistent_not_charging_delivers_false_once :
  forall (h : Handle) (cb : cb_fn_t) (l s : BatteryStatus.t) (th : Worker) (e0 : Env)
         (t1 t2 : Z) (rest : list Event),
    settled l th ->
    l <> BatteryStatus.NOT_CHARGING ->
    forallb (keeps_status BatteryStatus.NOT_CHARGING) rest = true ->
    let D := Z.max (clock e0) t1 + 3000 in
    let w := state_of (run ([push BatteryStatus.NOT_CHARGING; Tick t1; Wake] ++ rest)
                           (mkWorld (linked h cb s th) e0)) in
    let w2 := state_of (run [Tick t2; Wake] w) in
    (trace (env w) = trace e0
     \/ exists t : Z, D <= t /\ trace (env w) = trace e0 ++ [ACallback cb t false])
    /\ (D <= t2 ->
        exists t : Z, D <= t /\ trace (env w2) = trace e0 ++ [ACallback cb t false]).
Proof.
  intros h cb l s th e0 t1 t2 rest Hth Hne Hk D w w2.
  assert (G : in_timed_wait h cb D (trace e0)
                (state_of (run [push BatteryStatus.NOT_CHARGING; Tick t1; Wake]
                               (mkWorld (linked h cb s th) e0)))).
  { destruct (enter_grace h cb l s th e0 t1 Hth Hne) as (G1 & G2 & _).
    split; [exact G1|exact G2]. }
  assert (R : in_timed_wait h cb D (trace e0) w
              \/ exists t : Z,
                   D <= t
                   /\ caught_up h cb BatteryStatus.NOT_CHARGING
                                (trace e0 ++ [ACallback cb t false]) w).
  { subst w. rewrite run_app. apply run_in_timed_wait; assumption. }
  split.
  - destruct R as [[_ T]|(t & Ht & _ & T)]; [left; exact T|right; eauto].
  - intros Ht2. subst w2. destruct R as [W|(t & Ht & C)].
    + clearbody w. destruct w as [o en]. destruct W as [Ho T]. cbn [self env] in Ho, T.
      subst o. exists (Z.max (clock en) t2). split; [lia|].
      assert (El : (D <=? Z.max (clock en) t2) = true) by (apply Z.leb_le; lia).
      clearbody D. cbn. run_monad. rewrite worker_wake_eq. cbn. run_monad.
      rewrite El. cbn. now rewrite T.
    + exists t. split; [exact Ht|].
      apply (run_caught_up h cb BatteryStatus.NOT_CHARGING
               (trace e0 ++ [ACallback cb t false]) [Tick t2; Wake] w C).
      reflexivity.
Qed.

Lemma persistent_not_charging_delivers_false_once_witness :
  settled BatteryStatus.CHARGING (AtWait BatteryStatus.CHARGING)
  /\ BatteryStatus.CHARGING <> BatteryStatus.NOT_CHARGING
  /\ forallb (keeps_status BatteryStatus.NOT_CHARGING)
             [Wake; Tick 2000; push BatteryStatus.NOT_CHARGING; Wake] = true
  /\ Z.max 0 10 + 3000 <= 4000
  /\ exists t : Z,
       Z.max 0 10 + 3000 <= t
       /\ trace (env (state_of
             (run [Tick 4000; Wake]
                (state_of
                   (run ([push BatteryStatus.NOT_CHARGING; Tick 10; Wake]
                           ++ [Wake; Tick 2000; push BatteryStatus.NOT_CHARGING; Wake])
                      (mkWorld (linked 1%nat 2%nat BatteryStatus.CHARGING
                                       (AtWait BatteryStatus.CHARGING))
                               (quiet_env 0)))))))
          = [ACallback 2%nat t false].
Proof.
  assert (L : Z.max 0 10 + 3000 <= 4000)
    by lia.
  split; [left; reflexivity|]. split; [discriminate|].
  split; [reflexivity|]. split; [exact L|].
  apply (proj2 (persistent_not_charging_delivers_false_once 1%nat 2%nat
                  BatteryStatus.CHARGING BatteryStatus.CHARGING
                  (AtWait BatteryStatus.CHARGING) (quiet_env 0) 10 4000
                  [Wake; Tick 2000; push BatteryStatus.NOT_CHARGING; Wake]
                  (or_introl eq_refl)
                  ltac:(discriminate) eq_refl) L).
Defined.

(** Claim C6, as stated, fails. A NOT_CHARGING that is pushed before the
    new worker has run for the first time lasts four seconds and is never
    reported. A NOT_CHARGING that is pushed at 2900 ms, after a CHARGING the
    worker did not see, while the worker is in a timed wait it entered at
    0 ms, is reported at 3000 ms, 100 ms after the status became
    NOT_CHARGING. *)
Lemma not_charging_can_be_missed_or_early :
  callbacks (trace (env (state_of
    (run [push BatteryStatus.NOT_CHARGING; Wake; Tick 4000; Wake; Wake]
         (fresh_world BatteryStatus.CHARGING))))) = []
  /\ callbacks (trace (env (state_of
       (run [Wake; push BatteryStatus.NOT_CHARGING; Wake; Tick 2900;
             push BatteryStatus.CHARGING; push BatteryStatus.NOT_CHARGING;
             Tick 3000; Wake]
            (fresh_world BatteryStatus.CHARGING))))) = [(3000, false)].
Proof. split; reflexivity. Qed.

(** ** Service acquisition *)

Lemma lookups_app (l1 l2 : list Action) :
  lookups (l1 ++ l2) = (lookups l1 + lookups l2)%nat.
Proof. unfold lookups. now rewrite filter_app, length_app. Qed.

(** Splits on the next [n] replies of the service manager, as far as they
    are failures. *)
Ltac split_replies sr n :=
  match n with
  | O => idtac
  | S ?m => destruct sr as [|[?|] sr]; [ | | split_replies sr m]
  end.

(** [init] reached the service after [k] failed lookups. *)
Ltac init_after k :=
  exists k; split; [lia|];
  split; [cbn; repeat rewrite <- app_assoc; reflexivity | cbn; lia].

(** Evaluates [init] on every shape of the next five replies. *)
Lemma init_cases (o : BatteryListenerImpl) (e : Env) :
  mHealth o = None ->
  let r := init (mkWorld o e) in
  match first_handle 5 (svc_replies e) with
  | None =>
      result_of r = Ok NO_INIT
      /\ self (state_of r) = o
      /\ trace (env (state_of r)) = trace e ++ attempts 5
      /\ clock (env (state_of r)) = clock e + 5 * GET_HEALTH_SVC_WAIT_TIME_MS
  | Some h =>
      result_of r = Ok NO_ERROR
      /\ self (state_of r)
         = mkImpl (Some h) (initial_status (charge_replies e)) (mCb o) (Some AtStart) false
      /\ exists k : nat,
           (k < 5)%nat
           /\ trace (env (state_of r))
              = trace e ++ attempts k ++ AGetService :: link_actions h
           /\ clock (env (state_of r)) = clock e + Z.of_nat k * GET_HEALTH_SVC_WAIT_TIME_MS
  end.
Proof.
  destruct o as [h0 s cb th d]; cbn [mHealth]; intros ->.
  destruct e as [c sr cr js jd tr].
  unfold init; change (Z.to_nat GET_HEALTH_SVC_RETRY_CNT) with 5%nat.
  split_replies sr 5%nat; cbn [first_handle svc_replies];
    destruct cr as [|[|[] st] cr];
    first [ solve [cbn; repeat rewrite <- app_assoc; repeat split;
                   solve [reflexivity | lia]]
          | split; [reflexivity|]; split; [reflexivity|];
            first [init_after 0%nat | init_after 1%nat | init_after 2%nat
                  | init_after 3%nat | init_after 4%nat] ].
Qed.

Lemma attempts_succ (k : nat) :
  attempts (S k)
  = AGetService :: AUsleep (GET_HEALTH_SVC_WAIT_TIME_MS * 1000) :: attempts k.
Proof. reflexivity. Qed.

Lemma lookups_attempts (k : nat) : lookups (attempts k) = k.
Proof.
  induction k as [|k IH]; [reflexivity|].
  rewrite attempts_succ. unfold lookups in *. cbn. now rewrite IH.
Qed.

Lemma callbacks_attempts (k : nat) : callbacks (attempts k) = [].
Proof.
  induction k as [|k IH]; [reflexivity|]. rewrite attempts_succ. exact IH.
Qed.

(** Claim C7. [init] on an object without a handle looks the service up
    at most five times; its trace is [k] failed lookups, each followed by
    [usleep] of 500 ms, and then either nothing more ([k = 5]) or the
    lookup that succeeded and the linking ([k < 5]). When the next five
    lookups all fail it returns [NO_INIT] after exactly five lookups and
    five sleeps, with the object as it was: no callback registered, no
    worker started, no further lookup. *)
Theorem init_gives_up_after_five_lookups :
  forall (o : BatteryListenerImpl) (e : Env),
    mHealth o = None ->
    let r := init (mkWorld o e) in
    (lookups (trace (env (state_of r))) <= lookups (trace e) + 5)%nat
    /\ (exists k : nat,
          (k = 5%nat /\ trace (env (state_of r)) = trace e ++ attempts k)
          \/ (k < 5 /\ exists h : Handle,
                trace (env (state_of r))
                = trace e ++ attempts k ++ AGetService :: link_actions h)%nat)
    /\ (first_handle 5 (svc_replies e) = None ->
        result_of r = Ok NO_INIT
        /\ self (state_of r) = o
        /\ trace (env (state_of r)) = trace e ++ attempts 5
        /\ clock (env (state_of r)) = clock e + 5 * GET_HEALTH_SVC_WAIT_TIME_MS).
Proof.
  intros o e Ho r. pose proof (init_cases o e Ho) as H. cbv zeta in H. fold r in H.
  destruct (first_handle 5 (svc_replies e)) as [h|].
  - destruct H as (_ & _ & k & Hk & Ht & _).
    split; [|split; [|discriminate]].
    + rewrite Ht, !lookups_app, lookups_attempts. cbn. lia.
    + exists k. right. eauto.
  - destruct H as (Hr & Hs & Ht & Hc).
    split; [|split; [|auto]].
    + rewrite Ht, lookups_app, lookups_attempts. lia.
    + exists 5%nat. left. auto.
Qed.

Lemma init_gives_up_after_five_lookups_witness :
  mHealth (blank 9%nat (penv stranded)) = None
  /\ result_of (init (mkWorld (blank 9%nat (penv stranded)) (penv stranded))) = Ok NO_INIT
  /\ trace (env (state_of (init (mkWorld (blank 9%nat (penv stranded)) (penv stranded)))))
     = attempts 5.
Proof.
  split; [reflexivity|].
  destruct (init_gives_up_after_five_lookups
              (blank 9%nat (penv stranded)) (penv stranded) eq_refl)
    as (_ & _ & H).
  destruct (H eq_refl) as (Hr & _ & Ht & _).
  split; [exact Hr|exact Ht].
Defined.

(** ** Death of the service *)

(** Claim C8. When no handle is held, or when the interface that died is
    not the one held, [serviceDied] returns with the object and the
    environment as they were. *)
Theorem serviceDied_ignores_foreign_death :
  forall (interfacesEqual : option Handle -> option Handle -> bool)
         (who : option Handle) (w : World),
    mHealth (self w) = None \/ interfacesEqual (mHealth (self w)) who = false ->
    serviceDied interfacesEqual who w = (Ok tt, w).
Proof.
  intros ie who w H. unfold serviceDied; run_monad.
  destruct (mHealth (self w)) as [h|]; [|reflexivity].
  destruct H as [H|H]; [discriminate|]. now rewrite H.
Qed.

Lemma serviceDied_ignores_foreign_death_witness :
  (mHealth (self (fresh_world BatteryStatus.CHARGING)) = None
   \/ same_binder (mHealth (self (fresh_world BatteryStatus.CHARGING))) (Some 8%nat) = false)
  /\ serviceDied same_binder (Some 8%nat) (fresh_world BatteryStatus.CHARGING)
     = (Ok tt, fresh_world BatteryStatus.CHARGING).
Proof.
  split; [right; reflexivity|].
  apply (serviceDied_ignores_foreign_death same_binder (Some 8%nat)
           (fresh_world BatteryStatus.CHARGING)).
  right; reflexivity.
Defined.

(** ** The facade *)

Lemma with_listener_run (evs : list Event) (flag : bool) (o : BatteryListenerImpl)
      (det : list cb_fn_t) (en : Env) :
  with_listener (run evs) (mkProcess flag (Some o) det en)
  = (Ok tt,
     mkProcess flag (Some (self (state_of (run evs (mkWorld o en))))) det
               (env (state_of (run evs (mkWorld o en))))).
Proof.
  unfold with_listener. cbn [batteryListener penv sIsBatteryListened detached].
  destruct (run_total evs (mkWorld o en)) as [w' ->]. reflexivity.
Qed.

(** [batteryPropertiesListenerInit] in a process without a listener, from
    what [init] did inside the constructor and what the other threads did
    in the two gaps. *)
Lemma batteryPropertiesListenerInit_eq (cb : cb_fn_t) (gap1 gap2 : list Event)
      (flag : bool) (det : list cb_fn_t) (e : Env) (st : status_t) (w' : World) :
  init (mkWorld (blank cb e) e) = (Ok st, w') ->
  let w1 := state_of (run gap1 w') in
  let w2 := state_of (run gap2 w1) in
  batteryPropertiesListenerInit cb gap1 gap2 (mkProcess flag None det e)
  = (Ok NO_ERROR,
     mkProcess flag (Some (self w2)) det
       (if statusToBool (mStatus (self w1))
        then emit_env (ACallback cb (clock (env w2)) true) (env w2)
        else env w2)).
Proof.
  intros H w1 w2.
  unfold batteryPropertiesListenerInit, construct, call_on, set_batteryListener,
    batteryPropertiesListenerIsCharging, meanwhile, isCharging, bind, ret, this.
  cbn [penv batteryListener sIsBatteryListened detached]. fold (blank cb e). rewrite H.
  cbn [fst snd penv batteryListener sIsBatteryListened detached].
  rewrite with_listener_run. destruct w' as [o' e']. cbn [self env].
  fold w1. unfold with_listener at 1.
  cbn [penv batteryListener sIsBatteryListened detached].
  destruct w1 as [o1 e1] eqn:E1. cbn [self env fst snd].
  rewrite with_listener_run. fold w2.
  destruct (statusToBool (mStatus o1)); reflexivity.
Qed.

Lemma facade_init_to_read_eq (cb : cb_fn_t) (gap1 : list Event)
      (flag : bool) (det : list cb_fn_t) (e : Env) (st : status_t) (w' : World) :
  init (mkWorld (blank cb e) e) = (Ok st, w') ->
  facade_init_to_read cb gap1 (mkProcess flag None det e)
  = (Ok tt,
     mkProcess flag (Some (self (state_of (run gap1 w')))) det
               (env (state_of (run gap1 w')))).
Proof.
  intros H.
  unfold facade_init_to_read, construct, call_on, set_batteryListener, meanwhile,
    bind, ret.
  cbn [penv batteryListener sIsBatteryListened detached]. fold (blank cb e). rewrite H.
  cbn [fst snd penv batteryListener sIsBatteryListened detached].
  rewrite with_listener_run. destruct w' as [o' e']. reflexivity.
Qed.

Lemma init_never_aborts (o : BatteryListenerImpl) (e : Env) :
  mHealth o = None -> exists st w', init (mkWorld o e) = (Ok st, w').
Proof.
  intros Ho. pose proof (init_cases o e Ho) as H. cbv zeta in H.
  destruct (init (mkWorld o e)) as [[st|f] w'] eqn:E; [eauto|].
  destruct (first_handle 5 (svc_replies e)); destruct H as [H _]; discriminate.
Qed.

Lemma step_worker_at_rest (s : BatteryStatus.t) (e : Event) (w : World) :
  worker_at_rest s w -> keeps_status s e = true ->
  worker_at_rest s (state_of (step e w))
  /\ trace (env (state_of (step e w))) = trace (env w).
Proof.
  unfold worker_at_rest. intros [Hs Hth] Hk. destruct e; cbn [step keeps_status] in *.
  - unfold tick_to; cbn. auto.
  - rewrite worker_wake_eq.
    destruct (mThread (self w)) as [th|] eqn:Eth; [|cbn; rewrite Eth; auto].
    assert (E : exists th', at_rest s th'
                /\ worker_step th w = (Ok th', w)).
    { unfold at_rest in *.
      destruct Hth as [-> | [-> | [-> | ->]]]; cbn [worker_step]; run_monad;
        rewrite ?loop_head_eq, ?Hs, ?BatteryStatus_eqb_refl;
        destruct (mDone (self w)); eauto 6. }
    destruct E as (th' & Hth' & ->). cbn. repeat split; assumption.
  - unfold healthInfoChanged; run_monad. rewrite Hs, Hk. cbn. auto.
  - unfold healthInfoChanged_2_1, healthInfoChanged; run_monad. cbn.
    rewrite Hs, Hk. cbn. auto.
Qed.

Lemma run_worker_at_rest (s : BatteryStatus.t) (evs : list Event) (w : World) :
  worker_at_rest s w ->
  forallb (keeps_status s) evs = true ->
  worker_at_rest s (state_of (run evs w))
  /\ trace (env (state_of (run evs w))) = trace (env w).
Proof.
  revert w; induction evs as [|e evs IH]; intros w Hw Hk; [split; [exact Hw|reflexivity]|].
  cbn [forallb] in Hk. apply andb_true_iff in Hk as [He Hk].
  destruct (step_worker_at_rest s e w Hw He) as [Hw' Ht].
  rewrite run_cons. destruct (IH _ Hw' Hk) as [I1 I2]. split; [exact I1|congruence].
Qed.

(** Claim C9, as the code has it. In a process without a listener,
    whatever the other threads do in the two gaps of
    [batteryPropertiesListenerInit]:
    - the function returns [NO_ERROR] and its own call of the callback is
      the last thing it does: one call with [true] when the status stored
      at its read of line 241 is CHARGING or FULL, and none otherwise;
    - when one of the next five lookups gives the service and no push
      changes the status [init] read before the function returns, the
      status at the read is the one [init] read, and the immediate call
      is the only call of the callback so far. *)
Theorem immediate_callback_follows_status_at_read :
  forall (cb : cb_fn_t) (gap1 gap2 : list Event) (flag : bool) (det : list cb_fn_t)
         (e : Env),
    let p := mkProcess flag None det e in
    let p1 := state_of (facade_init_to_read cb gap1 p) in
    let p2 := state_of (meanwhile gap2 p1) in
    let r := batteryPropertiesListenerInit cb gap1 gap2 p in
    (result_of r = Ok NO_ERROR
     /\ trace (penv (state_of r))
        = trace (penv p2) ++ immediate_call cb (clock (penv p2)) (stored_status p1))
    /\ (forall h : Handle,
          first_handle 5 (svc_replies e) = Some h ->
          forallb (keeps_status (initial_status (charge_replies e))) (gap1 ++ gap2)
          = true ->
          stored_status p1 = Some (initial_status (charge_replies e))
          /\ callbacks (trace (penv (state_of r)))
             = callbacks (trace e)
               ++ callbacks (immediate_call cb (clock (penv p2))
                               (Some (initial_status (charge_replies e))))).
Proof.
  intros cb gap1 gap2 flag det e p p1 p2 r.
  destruct (init_never_aborts (blank cb e) e eq_refl) as (st & w' & E).
  assert (P1 : p1 = mkProcess flag (Some (self (state_of (run gap1 w')))) det
                              (env (state_of (run gap1 w')))).
  { subst p1 p. now rewrite (facade_init_to_read_eq cb gap1 flag det e st w' E). }
  assert (P2 : p2 = mkProcess flag
                      (Some (self (state_of (run gap2 (state_of (run gap1 w')))))) det
                      (env (state_of (run gap2 (state_of (run gap1 w')))))).
  { subst p2. rewrite P1. unfold meanwhile. rewrite with_listener_run.
    destruct (state_of (run gap1 w')) as [o1 e1]. reflexivity. }
  assert (R : trace (penv (state_of r))
              = trace (penv p2) ++ immediate_call cb (clock (penv p2)) (stored_status p1)).
  { subst r p. rewrite (batteryPropertiesListenerInit_eq cb gap1 gap2 flag det e st w' E).
    rewrite P1, P2. cbn [state_of snd penv stored_status batteryListener option_map].
    unfold statusToBool, immediate_call.
    destruct (mStatus (self (state_of (run gap1 w')))); cbn;
      now rewrite ?app_nil_r. }
  split.
  - split; [|exact R].
    subst r p. now rewrite (batteryPropertiesListenerInit_eq cb gap1 gap2 flag det e st w' E).
  - intros h Hh Hk. rewrite forallb_app in Hk. apply andb_true_iff in Hk as [K1 K2].
    pose proof (init_cases (blank cb e) e eq_refl) as H. cbv zeta in H.
    rewrite Hh, E in H. cbn [result_of state_of fst snd] in H.
    destruct H as (_ & Hs & k & _ & Ht & _).
    assert (W : worker_at_rest (initial_status (charge_replies e)) w').
    { split; rewrite Hs; [reflexivity|left; reflexivity]. }
    destruct (run_worker_at_rest _ gap1 w' W K1) as [[S1 W1] T1].
    destruct (run_worker_at_rest _ gap2 _ (conj S1 W1) K2) as [_ T2].
    assert (S : stored_status p1 = Some (initial_status (charge_replies e))).
    { rewrite P1. cbn. now rewrite S1. }
    split; [exact S|].
    rewrite R, S, P2. cbn [penv]. rewrite callbacks_app, T2, T1, Ht.
    now rewrite !callbacks_app, callbacks_attempts, app_nil_r.
Qed.

Lemma immediate_callback_follows_status_at_read_witness :
  first_handle 5 (svc_replies (penv (booting BatteryStatus.FULL))) = Some 3%nat
  /\ forallb (keeps_status (initial_status (charge_replies (penv (booting BatteryStatus.FULL)))))
             ([Wake; Tick 700] ++ [push BatteryStatus.FULL; Wake]) = true
  /\ callbacks (trace (penv (state_of
       (batteryPropertiesListenerInit 9%nat [Wake; Tick 700]
          [push BatteryStatus.FULL; Wake] (booting BatteryStatus.FULL)))))
     = [(700, true)].
Proof.
  split; [reflexivity|]. split; [reflexivity|].
  exact (proj2 (proj2 (immediate_callback_follows_status_at_read 9%nat
                         [Wake; Tick 700] [push BatteryStatus.FULL; Wake] false []
                         (penv (booting BatteryStatus.FULL)))
                      3%nat eq_refl eq_refl)).
Defined.

(** Claim C9, as stated, fails. [init] reads CHARGING and DISCHARGING is
    pushed before the read of line 241: no immediate call. [init] reads
    DISCHARGING and CHARGING is pushed before the read: an immediate call
    with [true]. *)
Lemma immediate_callback_can_miss_the_status_init_read :
  callbacks (trace (penv (state_of
    (batteryPropertiesListenerInit 9%nat [push BatteryStatus.DISCHARGING] []
       (booting BatteryStatus.CHARGING))))) = []
  /\ callbacks (trace (penv (state_of
       (batteryPropertiesListenerInit 9%nat [push BatteryStatus.CHARGING] []
          (booting BatteryStatus.DISCHARGING))))) = [(500, true)].
Proof. split; vm_compute; reflexivity. Qed.

(** Claim C10. In a process without a listener
    [batteryPropertiesListenerInit] returns [NO_ERROR] whatever the
    callback, whatever the health service does and whatever the other
    threads do meanwhile; in particular when the next five lookups fail,
    [init] inside the constructor returns [NO_INIT] and the facade still
    returns [NO_ERROR]. *)
Theorem facade_init_always_reports_success :
  forall (cb : cb_fn_t) (gap1 gap2 : list Event) (flag : bool) (det : list cb_fn_t)
         (e : Env),
    result_of (batteryPropertiesListenerInit cb gap1 gap2 (mkProcess flag None det e))
    = Ok NO_ERROR
    /\ (first_handle 5 (svc_replies e) = None ->
        result_of (init (mkWorld (blank cb e) e)) = Ok NO_INIT
        /\ result_of (batteryPropertiesListenerInit cb gap1 gap2
                        (mkProcess flag None det e))
           = Ok NO_ERROR).
Proof.
  intros cb gap1 gap2 flag det e.
  destruct (init_never_aborts (blank cb e) e eq_refl) as (st & w' & E).
  assert (R : result_of (batteryPropertiesListenerInit cb gap1 gap2
                           (mkProcess flag None det e))
              = Ok NO_ERROR)
    by now rewrite (batteryPropertiesListenerInit_eq cb gap1 gap2 flag det e st w' E).
  split; [exact R|]. intros Hn. split; [|exact R].
  pose proof (init_cases (blank cb e) e eq_refl) as H. cbv zeta in H.
  rewrite Hn in H. tauto.
Qed.

Lemma facade_init_always_reports_success_witness :
  first_handle 5 (svc_replies (penv stranded)) = None
  /\ result_of (init (mkWorld (blank 9%nat (penv stranded)) (penv stranded))) = Ok NO_INIT
  /\ result_of (batteryPropertiesListenerInit 9%nat [] [] stranded) = Ok NO_ERROR.
Proof.
  split; [reflexivity|].
  exact (proj2 (facade_init_always_reports_success 9%nat [] [] false []
                  (penv stranded)) eq_refl).
Defined.

Lemma set_batteryListener_flag (n : option BatteryListenerImpl) (p : Process) :
  sIsBatteryListened (state_of (set_batteryListener n p)) = sIsBatteryListened p.
Proof.
  unfold set_batteryListener, call_on, bind, ret, state_of.
  destruct (batteryListener p) as [old|]; [|reflexivity].
  destruct (destroy (mkWorld old (penv p))) as [[u|f] w]; reflexivity.
Qed.

Lemma set_batteryListener_done (n : option BatteryListenerImpl) (p : Process) :
  result_of (set_batteryListener n p) = Ok tt ->
  batteryListener (state_of (set_batteryListener n p)) = n.
Proof.
  unfold set_batteryListener, call_on, bind, ret, state_of, result_of.
  destruct (batteryListener p) as [old|]; [|reflexivity].
  destruct (destroy (mkWorld old (penv p))) as [[u|f] w]; [reflexivity|discriminate].
Qed.

Lemma deinit_eq (p : Process) :
  loc_extn_battery_properties_listener_deinit p
  = (result_of (set_batteryListener None p), state_of (set_batteryListener None p)).
Proof.
  unfold loc_extn_battery_properties_listener_deinit, batteryPropertiesListenerDeinit,
    bind, ret, result_of, state_of.
  destruct (set_batteryListener None p) as [[[]|f] p']; reflexivity.
Qed.

(** Claim C4, as the code has it. [deinit] never writes
    [sIsBatteryListened]: whatever its outcome, the flag is as it was
    before; so once the flag is set, an [init] that follows a [deinit]
    returns at once and changes nothing: it starts no thread and no
    listener is constructed. *)
Theorem deinit_keeps_started_flag :
  forall (p : Process) (fn : cb_fn_t),
    let r := loc_extn_battery_properties_listener_deinit p in
    sIsBatteryListened (state_of r) = sIsBatteryListened p
    /\ (sIsBatteryListened p = true ->
        loc_extn_battery_properties_listener_init fn (state_of r) = (Ok tt, state_of r)).
Proof.
  intros p fn r. subst r. rewrite deinit_eq. cbn [state_of result_of fst snd].
  pose proof (set_batteryListener_flag None p) as F.
  split; [exact F|]. intros Hp.
  unfold loc_extn_battery_properties_listener_init. now rewrite F, Hp.
Qed.

Lemma deinit_keeps_started_flag_witness :
  sIsBatteryListened
    (state_of (loc_extn_battery_properties_listener_init 9%nat
                 (booting BatteryStatus.CHARGING))) = true
  /\ loc_extn_battery_properties_listener_init 7%nat
       (state_of (loc_extn_battery_properties_listener_deinit
          (state_of (loc_extn_battery_properties_listener_init 9%nat
                       (booting BatteryStatus.CHARGING)))))
     = (Ok tt,
        state_of (loc_extn_battery_properties_listener_deinit
          (state_of (loc_extn_battery_properties_listener_init 9%nat
                       (booting BatteryStatus.CHARGING))))).
Proof.
  split; [reflexivity|].
  apply (proj2 (deinit_keeps_started_flag
                  (state_of (loc_extn_battery_properties_listener_init 9%nat
                               (booting BatteryStatus.CHARGING)))
                  7%nat)).
  reflexivity.
Defined.

(** Claim C4, as stated, fails: after [init], the run of its detached
    thread and a [deinit] that returns, the flag is still set and a second
    [init] starts nothing. *)
Lemma init_after_deinit_is_a_no_op :
  let r1 := (loc_extn_battery_properties_listener_init 9%nat ;;
             t1 [] [] ;;
             loc_extn_battery_properties_listener_deinit)
              (booting BatteryStatus.CHARGING) in
  let r2 := loc_extn_battery_properties_listener_init 9%nat (state_of r1) in
  result_of r1 = Ok tt
  /\ sIsBatteryListened (state_of r1) = true
  /\ result_of r2 = Ok tt
  /\ batteryListener (state_of r2) = None
  /\ detached (state_of r2) = []
  /\ state_of r2 = state_of r1.
Proof. vm_compute. repeat split. Qed.

(** ** Teardown *)

(** Claim C5 fails on the code. When the next five lookups fail, the
    listener that the detached thread of [init] leaves behind holds
    neither a handle nor a thread, and its teardown through [deinit]
    calls [unlinkToDeath] on the null handle; [join] on a listener without
    a thread dereferences the null [mThread]. *)
Theorem teardown_after_failed_acquisition_faults :
  forall (fn : cb_fn_t) (e : Env),
    first_handle 5 (svc_replies e) = None ->
    let p1 := state_of ((loc_extn_battery_properties_listener_init fn ;; t1 [] [])
                          (mkProcess false None [] e)) in
    batteryListener p1 = Some (blank fn e)
    /\ result_of (loc_extn_battery_properties_listener_deinit p1) = Abort NullHealth
    /\ forall (o : BatteryListenerImpl) (en : Env) (notified : bool),
         result_of (join notified (mkWorld (with_mThread None o) en)) = Abort NullThread.
Proof.
  intros fn e Hn p1.
  destruct (init_never_aborts (blank fn e) e eq_refl) as (st & w' & E).
  pose proof (init_cases (blank fn e) e eq_refl) as H. cbv zeta in H.
  rewrite Hn, E in H. cbn [result_of state_of fst snd] in H.
  destruct H as (_ & Hs & _).
  assert (P : batteryListener p1 = Some (blank fn e)).
  { subst p1. unfold loc_extn_battery_properties_listener_init, t1, bind.
    cbn [sIsBatteryListened negb detached batteryListener penv app].
    rewrite (batteryPropertiesListenerInit_eq fn [] [] true [] e st w' E).
    cbn. now rewrite Hs. }
  split; [exact P|]. split; [|reflexivity].
  rewrite deinit_eq. cbn [result_of fst].
  unfold set_batteryListener, call_on, bind. rewrite P. reflexivity.
Qed.

Lemma teardown_after_failed_acquisition_faults_witness :
  first_handle 5 (svc_replies (penv stranded)) = None
  /\ result_of (loc_extn_battery_properties_listener_deinit
                  (state_of ((loc_extn_battery_properties_listener_init 9%nat ;; t1 [] [])
                               stranded)))
     = Abort NullHealth.
Proof.
  split; [reflexivity|].
  exact (proj1 (proj2 (teardown_after_failed_acquisition_faults 9%nat
                         (penv stranded) eq_refl))).
Defined.

(** ** Concrete runs *)

(** The held service dies while the worker is idle: the worker is stopped
    and joined, the service is looked up again and a new worker is
    created on the status read from the new service. *)
Example serviceDied_relinks :
  serviceDied same_binder (Some 1%nat)
    (mkWorld (linked 1%nat 2%nat BatteryStatus.CHARGING (AtWait BatteryStatus.CHARGING))
       (mkEnv 0 [Some 5%nat] [Reply Result.SUCCESS BatteryStatus.DISCHARGING]
              BatteryStatus.UNKNOWN false []))
  = (Ok tt,
     mkWorld (linked 5%nat 2%nat BatteryStatus.DISCHARGING AtStart)
       (mkEnv 0 [] [] BatteryStatus.UNKNOWN false
              (AGetService :: link_actions 5%nat))).
Proof. reflexivity. Qed.

(** The held service dies while the worker is in its timed wait: [join]
    lasts until the deadline and the worker still delivers [false]. *)
Example serviceDied_in_timed_wait :
  callbacks (trace (env (state_of
    (serviceDied same_binder (Some 1%nat)
       (mkWorld (linked 1%nat 2%nat BatteryStatus.NOT_CHARGING
                        (AtWaitFor BatteryStatus.NOT_CHARGING 3000))
          (mkEnv 1000 [Some 5%nat] [] BatteryStatus.UNKNOWN false []))))))
  = [(3000, false)].
Proof. reflexivity. Qed.

(** The destructor sets [mDone] without notifying [mCond]: with the worker
    idle in [mCond.wait], [join] has nothing to wait for. *)
Example destroy_with_idle_worker :
  result_of (destroy (mkWorld (linked 1%nat 2%nat BatteryStatus.CHARGING
                                      (AtWait BatteryStatus.CHARGING))
                              (quiet_env 0)))
  = Abort JoinBlocked.
Proof. reflexivity. Qed.

(** A push that lands before the new thread has taken [mLock] for the
    first time becomes the worker's first [local_status]: a NOT_CHARGING
    that arrives this way is never reported, however long it lasts. *)
Example push_before_first_run_is_absorbed :
  let w := state_of (run [push BatteryStatus.NOT_CHARGING; Wake; Tick 4000; Wake; Wake]
                         (fresh_world BatteryStatus.CHARGING)) in
  callbacks (trace (env w)) = []
  /\ mThread (self w) = Some (AtWait BatteryStatus.NOT_CHARGING).
Proof. split; reflexivity. Qed.

(** Without a listener the point query dereferences the null global. *)
Example is_charging_without_listener :
  result_of (loc_extn_battery_properties_is_charging stranded) = Abort NullListener.
Proof. reflexivity. Qed.

(** ** Further properties of the push path *)

Lemma push_twice (a b : BatteryStatus.t) (w : World) :
  state_of (step (push b) (state_of (step (push a) w))) = state_of (step (push b) w).
Proof.
  destruct w as [[h s cb th d] e]. cbn [step push]. unfold healthInfoChanged; run_monad.
  cbn. destruct a, b, s; reflexivity.
Qed.

(** A run of pushes that the worker does not interleave leaves the listener
    where the last push alone would leave it. *)
Theorem pushes_collapse_to_the_last :
  forall (l : list BatteryStatus.t) (s : BatteryStatus.t) (w : World),
    state_of (run (map push (l ++ [s])) w) = state_of (run [push s] w).
Proof.
  induction l as [|a l IH]; intros s w; [reflexivity|].
  cbn [app map]. rewrite run_cons, IH, !run_cons. cbn [run]. unfold ret, state_of at 1 3.
  cbn [snd]. apply push_twice.
Qed.

(** ** Further properties of the worker *)

(** As long as the stored status does not change, a worker that has not
    run yet, that saw the stored status last or that has left its loop
    never calls back; in particular the status a listener starts with is
    never reported by the worker. *)
Theorem no_change_no_callback :
  forall (s : BatteryStatus.t) (evs : list Event) (w : World),
    worker_at_rest s w ->
    forallb (keeps_status s) evs = true ->
    trace (env (state_of (run evs w))) = trace (env w).
Proof.
  intros s evs; induction evs as [|e evs IH]; intros w Hw Hk; [reflexivity|].
  cbn [forallb] in Hk. apply andb_true_iff in Hk as [He Hk].
  destruct (step_worker_at_rest s e w Hw He) as [Hw' Ht].
  rewrite run_cons, IH; assumption.
Qed.

Lemma no_change_no_callback_witness :
  worker_at_rest BatteryStatus.DISCHARGING (fresh_world BatteryStatus.DISCHARGING)
  /\ trace (env (state_of
        (run [Wake; Tick 5000; push BatteryStatus.DISCHARGING; Wake]
             (fresh_world BatteryStatus.DISCHARGING)))) = [].
Proof.
  assert (H : worker_at_rest BatteryStatus.DISCHARGING
                (fresh_world BatteryStatus.DISCHARGING))
    by (split; [reflexivity|left; reflexivity]).
  split; [exact H|].
  apply (no_change_no_callback BatteryStatus.DISCHARGING
           [Wake; Tick 5000; push BatteryStatus.DISCHARGING; Wake]
           (fresh_world BatteryStatus.DISCHARGING) H).
  reflexivity.
Defined.

(** A status other than NOT_CHARGING that differs from the one the worker
    saw last is reported at the next scheduling of the worker, without
    delay, with its own boolean. *)
Theorem other_status_is_reported_at_once :
  forall (h : Handle) (cb : cb_fn_t) (l s0 s : BatteryStatus.t) (th : Worker)
         (e0 : Env) (t : Z),
    settled l th ->
    s <> l ->
    s <> BatteryStatus.NOT_CHARGING ->
    trace (env (state_of (run [push s; Tick t; Wake]
                              (mkWorld (linked h cb s0 th) e0))))
    = trace e0 ++ [ACallback cb (Z.max (clock e0) t) (statusToBool s)].
Proof.
  intros h cb l s0 s th e0 t Hth Hl Hn.
  destruct Hth as [-> | ->]; destruct s, l; try congruence; destruct s0; reflexivity.
Qed.

Lemma other_status_is_reported_at_once_witness :
  settled BatteryStatus.CHARGING (AtWait BatteryStatus.CHARGING)
  /\ BatteryStatus.DISCHARGING <> BatteryStatus.CHARGING
  /\ BatteryStatus.DISCHARGING <> BatteryStatus.NOT_CHARGING
  /\ trace (env (state_of
        (run [push BatteryStatus.DISCHARGING; Tick 70; Wake]
             (mkWorld (linked 1%nat 2%nat BatteryStatus.CHARGING
                              (AtWait BatteryStatus.CHARGING))
                      (quiet_env 0)))))
     = [ACallback 2%nat 70 false].
Proof.
  split; [left; reflexivity|]. split; [discriminate|]. split; [discriminate|].
  apply (other_status_is_reported_at_once 1%nat 2%nat BatteryStatus.CHARGING
           BatteryStatus.CHARGING BatteryStatus.DISCHARGING
           (AtWait BatteryStatus.CHARGING) (quiet_env 0) 70).
  - left; reflexivity.
  - discriminate.
  - discriminate.
Defined.

(** The case the comment of lines 133-140 describes. The worker saw a
    status [l] other than NOT_CHARGING last; NOT_CHARGING is pushed and
    the worker enters its timed wait; a status [s'] other than
    NOT_CHARGING is pushed before the worker has timed out. NOT_CHARGING
    is never reported, and [s'] is reported once, with its own boolean, at
    the next scheduling of the worker. *)
Theorem timed_wait_is_cancelled_by_another_status :
  forall (h : Handle) (cb : cb_fn_t) (l s0 s' : BatteryStatus.t) (th : Worker)
         (e0 : Env) (t1 t3 : Z) (mid : list Event),
    settled l th ->
    l <> BatteryStatus.NOT_CHARGING ->
    s' <> BatteryStatus.NOT_CHARGING ->
    forallb (quiet (Z.max (clock e0) t1 + NOT_CHARGING_WAIT_MS)) mid = true ->
    let w1 := state_of (run ([push BatteryStatus.NOT_CHARGING; Tick t1; Wake] ++ mid)
                            (mkWorld (linked h cb s0 th) e0)) in
    let w2 := state_of (run [push s'; Tick t3; Wake] w1) in
    trace (env w1) = trace e0
    /\ trace (env w2) = trace e0 ++ [ACallback cb (clock (env w2)) (statusToBool s')].
Proof.
  intros h cb l s0 s' th e0 t1 t3 mid Hth Hl Hs Hq w1 w2.
  assert (G : grace_open h cb (Z.max (clock e0) t1 + NOT_CHARGING_WAIT_MS)
                (trace e0) w1).
  { subst w1. rewrite run_app. apply run_grace_open; [|exact Hq].
    apply (enter_grace h cb l s0); assumption. }
  subst w2. destruct w1 as [o en]. destruct G as (Ho & Ht & Hc).
  cbn [self env] in *. subst o. split; [exact Ht|].
  rewrite <- Ht. destruct s'; try congruence; reflexivity.
Qed.

Lemma timed_wait_is_cancelled_by_another_status_witness :
  settled BatteryStatus.DISCHARGING (AtWait BatteryStatus.DISCHARGING)
  /\ BatteryStatus.DISCHARGING <> BatteryStatus.NOT_CHARGING
  /\ BatteryStatus.CHARGING <> BatteryStatus.NOT_CHARGING
  /\ forallb (quiet (Z.max 0 0 + NOT_CHARGING_WAIT_MS)) [Wake; Tick 900] = true
  /\ trace (env (state_of
        (run [push BatteryStatus.CHARGING; Tick 1000; Wake]
           (state_of
              (run ([push BatteryStatus.NOT_CHARGING; Tick 0; Wake] ++ [Wake; Tick 900])
                 (mkWorld (linked 1%nat 2%nat BatteryStatus.DISCHARGING
                                  (AtWait BatteryStatus.DISCHARGING))
                          (quiet_env 0)))))))
     = [ACallback 2%nat 1000 true].
Proof.
  split; [left; reflexivity|]. split; [discriminate|]. split; [discriminate|].
  split; [reflexivity|].
  apply (timed_wait_is_cancelled_by_another_status 1%nat 2%nat
           BatteryStatus.DISCHARGING BatteryStatus.DISCHARGING BatteryStatus.CHARGING
           (AtWait BatteryStatus.DISCHARGING) (quiet_env 0) 0 1000 [Wake; Tick 900]).
  - left; reflexivity.
  - discriminate.
  - discriminate.
  - reflexivity.
Defined.

Lemma changes_cons (s : BatteryStatus.t) (e : Event) (rest : list Event) :
  changes s (e :: rest)
  = (changes s [e]
     + changes (match pushed e with Some s' => s' | None => s end) rest)%nat.
Proof.
  cbn [changes]. destruct (pushed e) as [s'|]; [|reflexivity].
  destruct (BatteryStatus_eqb_spec s' s) as [->|ne]; reflexivity.
Qed.

(** One event: what is delivered plus what is still owed grows by at most
    the change the event makes to the store. *)
Lemma step_budget (e : Event) (w : World) :
  let w' := state_of (step e w) in
  (length (callbacks (trace (env w'))) + pending w'
   <= length (callbacks (trace (env w))) + pending w + changes (mStatus (self w)) [e])%nat
  /\ mStatus (self w') = match pushed e with Some s' => s' | None => mStatus (self w) end.
Proof.
  destruct w as [[h s cb th d] [c sr cr js jd tr]]. destruct e as [t| |info|info].
  - unfold pending. cbn. split; [lia|reflexivity].
  - split; [|apply worker_wake_mStatus].
    destruct th as [[|l|l dl|l|]|]; cbn [step]; rewrite worker_wake_eq;
      unfold pending; cbn; fold (callbacks tr); try lia.
    + destruct d, s; cbn; fold (callbacks tr); lia.
    + destruct d, l, s; cbn; rewrite ?callbacks_app, ?length_app; cbn; fold (callbacks tr); lia.
    + destruct d, l, s; cbn; destruct (dl <=? c); cbn;
        rewrite ?callbacks_app, ?length_app; cbn; fold (callbacks tr); lia.
    + destruct d, l, s; cbn; rewrite ?callbacks_app, ?length_app; cbn; fold (callbacks tr); lia.
  - destruct info as [[s']]. cbn [step pushed changes V1_0.batteryStatus V2_0.legacy].
    unfold healthInfoChanged, pending; run_monad. cbn.
    destruct th as [[|l|l dl|l|]|]; destruct s', s; cbn;
      try (destruct l; cbn); fold (callbacks tr); split; try reflexivity; lia.
  - destruct info as [[[s']]].
    cbn [step pushed changes V1_0.batteryStatus V2_0.legacy V2_1.legacy].
    unfold healthInfoChanged_2_1, healthInfoChanged, pending; run_monad. cbn.
    destruct th as [[|l|l dl|l|]|]; destruct s', s; cbn;
      try (destruct l; cbn); fold (callbacks tr); split; try reflexivity; lia.
Qed.

Lemma run_budget (evs : list Event) (w : World) :
  let w' := state_of (run evs w) in
  (length (callbacks (trace (env w'))) + pending w'
   <= length (callbacks (trace (env w))) + pending w + changes (mStatus (self w)) evs)%nat.
Proof.
  cbv zeta. revert w; induction evs as [|e evs IH]; intros w; [cbn; lia|].
  rewrite run_cons, changes_cons.
  destruct (step_budget e w) as [Hb Hs]. cbv zeta in Hb.
  specialize (IH (state_of (step e w))). rewrite Hs in IH. lia.
Qed.

(** Along every schedule that starts with a freshly created worker, the
    worker calls back at most once per change of the stored status. *)
Theorem at_most_one_callback_per_change :
  forall (evs : list Event) (w : World),
    mThread (self w) = Some AtStart ->
    (length (callbacks (trace (env (state_of (run evs w)))))
     <= length (callbacks (trace (env w))) + changes (mStatus (self w)) evs)%nat.
Proof.
  intros evs w H. pose proof (run_budget evs w) as B. cbv zeta in B.
  assert (P : pending w = O) by (unfold pending; now rewrite H).
  lia.
Qed.

Lemma at_most_one_callback_per_change_witness :
  mThread (self (fresh_world BatteryStatus.UNKNOWN)) = Some AtStart
  /\ (length (callbacks (trace (env (state_of
        (run [Wake; push BatteryStatus.CHARGING; push BatteryStatus.UNKNOWN;
              push BatteryStatus.FULL; Wake; Wake]
             (fresh_world BatteryStatus.UNKNOWN))))))
      <= 3)%nat.
Proof.
  split; [reflexivity|].
  apply (at_most_one_callback_per_change
           [Wake; push BatteryStatus.CHARGING; push BatteryStatus.UNKNOWN;
            push BatteryStatus.FULL; Wake; Wake]
           (fresh_world BatteryStatus.UNKNOWN)).
  reflexivity.
Defined.




(** ** Stopping the worker *)

Lemma leb_max_r (a b : Z) : (b <=? Z.max a b) = true.
Proof. apply Z.leb_le. lia. Qed.

(** [join] on a worker that was told to stop and that something wakes. *)
Lemma join_returns (notified : bool) (hh : option Handle) (s : BatteryStatus.t)
      (cb : cb_fn_t) (th : Worker) (e : Env) :
  negb notified && idle s th = false ->
  let r := join notified (mkWorld (mkImpl hh s cb (Some th) true) e) in
  result_of r = Ok tt
  /\ self (state_of r) = mkImpl hh s cb (Some Exited) true
  /\ trace (env (state_of r)) = trace e ++ last_words cb s (clock e) th
  /\ svc_replies (env (state_of r)) = svc_replies e
  /\ charge_replies (env (state_of r)) = charge_replies e.
Proof.
  destruct e as [c sr cr js jd tr]. intros H.
  destruct th as [|l|l d|l|]; unfold join, last_words; run_monad; cbn [idle] in H.
  - cbn. rewrite app_nil_r. repeat split.
  - rewrite H. cbn. rewrite app_nil_r. repeat split.
  - destruct s, l; cbn; unfold worker_wake, worker_step, loop_head, deliver;
      do 2 (run_monad; cbn); rewrite ?leb_max_r; do 2 (run_monad; cbn);
      rewrite ?app_nil_r; repeat split.
  - cbn. rewrite app_nil_r. repeat split.
  - cbn. rewrite app_nil_r. repeat split.
Qed.

(** ** Death of the held service *)

Lemma serviceDied_eq (ie : option Handle -> option Handle -> bool)
      (who : option Handle) (h : Handle) (s : BatteryStatus.t) (cb : cb_fn_t)
      (th : option Worker) (d0 : bool) (e : Env) :
  ie (Some h) who = true ->
  serviceDied ie who (mkWorld (mkImpl (Some h) s cb th d0) e)
  = (join true ;; _ <- init ;; ret tt) (mkWorld (mkImpl None s cb th true) e).
Proof. intros H. unfold serviceDied; run_monad. now rewrite H. Qed.

(** What [serviceDied] leaves behind when the held interface died. *)
Lemma serviceDied_fields (ie : option Handle -> option Handle -> bool)
      (who : option Handle) (h : Handle) (s : BatteryStatus.t) (cb : cb_fn_t)
      (th : Worker) (d0 : bool) (e : Env) :
  ie (Some h) who = true ->
  let r := serviceDied ie who (mkWorld (mkImpl (Some h) s cb (Some th) d0) e) in
  result_of r = Ok tt
  /\ self (state_of r)
     = match first_handle 5 (svc_replies e) with
       | Some h' => mkImpl (Some h') (initial_status (charge_replies e)) cb
                           (Some AtStart) false
       | None => mkImpl None s cb (Some Exited) true
       end
  /\ callbacks (trace (env (state_of r)))
     = callbacks (trace e) ++ callbacks (last_words cb s (clock e) th).
Proof.
  intros H. cbv zeta. rewrite (serviceDied_eq ie who h s cb (Some th) d0 e H).
  pose proof (join_returns true None s cb th e eq_refl) as J. cbv zeta in J.
  unfold bind, ret. cbv beta.
  destruct (join true (mkWorld (mkImpl None s cb (Some th) true) e)) as [rj [oj ej]].
  cbn [result_of state_of fst snd self env] in J.
  destruct J as (-> & -> & Jt & Js & Jc).
  pose proof (init_cases (mkImpl None s cb (Some Exited) true) ej eq_refl) as I.
  cbv zeta in I. rewrite Js, Jc in I.
  destruct (init (mkWorld (mkImpl None s cb (Some Exited) true) ej)) as [[st|f] wi].
  - cbv beta iota. cbn [result_of state_of fst snd mCb] in *. split; [reflexivity|].
    destruct (first_handle 5 (svc_replies e)) as [h'|].
    + destruct I as (_ & Hs & k & _ & Ht & _). split; [exact Hs|].
      rewrite Ht, Jt, !callbacks_app, callbacks_attempts. cbn. now rewrite app_nil_r.
    + destruct I as (_ & Hs & Ht & _). split; [exact Hs|].
      rewrite Ht, Jt, !callbacks_app, callbacks_attempts. now rewrite app_nil_r.
  - cbv beta iota. cbn [result_of fst] in I.
    destruct (first_handle 5 (svc_replies e)); destruct I as [I _]; discriminate.
Qed.

(** When the held interface dies, [serviceDied] stops and joins the
    worker and runs [init] again: with a service among the next five
    lookups the listener ends linked to it, on the status read from it and
    with a fresh worker; without one it ends without a handle, stopped.
    The only call of the callback it can cause is the one of a timed wait
    that was open; a change the worker had not yet seen and the status
    read from the new service are not reported. *)
Theorem serviceDied_relinks_or_gives_up :
  forall (ie : option Handle -> option Handle -> bool) (who : option Handle)
         (h : Handle) (s : BatteryStatus.t) (cb : cb_fn_t) (th : Worker)
         (d0 : bool) (e : Env),
    ie (Some h) who = true ->
    let r := serviceDied ie who (mkWorld (mkImpl (Some h) s cb (Some th) d0) e) in
    result_of r = Ok tt
    /\ self (state_of r)
       = match first_handle 5 (svc_replies e) with
         | Some h' => mkImpl (Some h') (initial_status (charge_replies e)) cb
                             (Some AtStart) false
         | None => mkImpl None s cb (Some Exited) true
         end
    /\ callbacks (trace (env (state_of r)))
       = callbacks (trace e) ++ callbacks (last_words cb s (clock e) th).
Proof. intros. now apply serviceDied_fields. Qed.

Lemma serviceDied_relinks_or_gives_up_witness :
  same_binder (Some 1%nat) (Some 1%nat) = true
  /\ self (state_of
       (serviceDied same_binder (Some 1%nat)
          (mkWorld (mkImpl (Some 1%nat) BatteryStatus.DISCHARGING 2%nat
                           (Some (AtWait BatteryStatus.CHARGING)) false)
             (mkEnv 0 [None; Some 5%nat] [Reply Result.SUCCESS BatteryStatus.FULL]
                    BatteryStatus.UNKNOWN false []))))
     = mkImpl (Some 5%nat) BatteryStatus.FULL 2%nat (Some AtStart) false.
Proof.
  split; [reflexivity|].
  exact (proj1 (proj2 (serviceDied_relinks_or_gives_up same_binder (Some 1%nat)
                         1%nat BatteryStatus.DISCHARGING 2%nat
                         (AtWait BatteryStatus.CHARGING) false
                         (mkEnv 0 [None; Some 5%nat]
                                [Reply Result.SUCCESS BatteryStatus.FULL]
                                BatteryStatus.UNKNOWN false [])
                         eq_refl))).
Defined.

(** A second notice of the same death is ignored, whether the listener
    has been linked to another binder or has given up. *)
Theorem repeated_death_notice_is_ignored :
  forall (who : option Handle) (h : Handle) (s : BatteryStatus.t) (cb : cb_fn_t)
         (th : Worker) (d0 : bool) (e : Env),
    same_binder (Some h) who = true ->
    first_handle 5 (svc_replies e) <> Some h ->
    let w1 := state_of (serviceDied same_binder who
                          (mkWorld (mkImpl (Some h) s cb (Some th) d0) e)) in
    serviceDied same_binder who w1 = (Ok tt, w1).
Proof.
  intros who h s cb th d0 e Hw Hn w1.
  destruct (serviceDied_fields same_binder who h s cb th d0 e Hw) as (_ & Hs & _).
  fold w1 in Hs. destruct who as [h0|]; [|discriminate].
  cbn [same_binder] in Hw. apply Nat.eqb_eq in Hw. subst h0.
  unfold serviceDied; run_monad. rewrite Hs.
  destruct (first_handle 5 (svc_replies e)) as [h'|]; cbn; [|reflexivity].
  destruct (Nat.eqb_spec h' h) as [->|ne]; [congruence|reflexivity].
Qed.

Lemma repeated_death_notice_is_ignored_witness :
  same_binder (Some 1%nat) (Some 1%nat) = true
  /\ first_handle 5 [None; Some 5%nat] <> Some 1%nat
  /\ result_of
       (serviceDied same_binder (Some 1%nat)
          (state_of
             (serviceDied same_binder (Some 1%nat)
                (mkWorld (mkImpl (Some 1%nat) BatteryStatus.CHARGING 2%nat
                                 (Some (AtWait BatteryStatus.CHARGING)) false)
                   (mkEnv 0 [None; Some 5%nat] [] BatteryStatus.UNKNOWN false [])))))
     = Ok tt.
Proof.
  split; [reflexivity|]. split; [discriminate|].
  assert (N : first_handle 5 [None; Some 5%nat] <> Some 1%nat) by discriminate.
  exact (f_equal fst
           (repeated_death_notice_is_ignored (Some 1%nat) 1%nat BatteryStatus.CHARGING
              2%nat (AtWait BatteryStatus.CHARGING) false
              (mkEnv 0 [None; Some 5%nat] [] BatteryStatus.UNKNOWN false [])
              eq_refl N)).
Defined.

(** ** Teardown of a linked listener *)




(** ** Further properties of [init] *)

(** [init] on an object without a handle never faults; it returns
    [NO_ERROR] exactly when one of the next five lookups gives a handle
    and [NO_INIT] otherwise, and it sleeps a whole number of 500 ms
    periods, at most five. *)
Theorem init_outcome_and_duration :
  forall (o : BatteryListenerImpl) (e : Env),
    mHealth o = None ->
    let r := init (mkWorld o e) in
    result_of r = Ok (match first_handle 5 (svc_replies e) with
                      | Some _ => NO_ERROR
                      | None => NO_INIT
                      end)
    /\ exists k : nat,
         (k <= 5)%nat
         /\ clock (env (state_of r)) = clock e + Z.of_nat k * GET_HEALTH_SVC_WAIT_TIME_MS.
Proof.
  intros o e Ho r. pose proof (init_cases o e Ho) as H. cbv zeta in H. fold r in H.
  destruct (first_handle 5 (svc_replies e)) as [h|].
  - destruct H as (Hr & _ & k & Hk & _ & Hc). split; [exact Hr|].
    exists k. split; [lia|exact Hc].
  - destruct H as (Hr & _ & _ & Hc). split; [exact Hr|].
    exists 5%nat. split; [lia|exact Hc].
Qed.

Lemma init_outcome_and_duration_witness :
  mHealth (blank 9%nat (penv (booting BatteryStatus.FULL))) = None
  /\ result_of (init (mkWorld (blank 9%nat (penv (booting BatteryStatus.FULL)))
                              (penv (booting BatteryStatus.FULL))))
     = Ok NO_ERROR.
Proof.
  split; [reflexivity|].
  exact (proj1 (init_outcome_and_duration
                  (blank 9%nat (penv (booting BatteryStatus.FULL)))
                  (penv (booting BatteryStatus.FULL)) eq_refl)).
Defined.

(** [init] on an object that holds a handle returns [INVALID_OPERATION]
    and touches nothing; so a second [init] after one that linked the
    listener is refused and leaves the link as it is. *)
Theorem second_init_is_refused :
  forall (o : BatteryListenerImpl) (e : Env),
    (forall h : Handle, mHealth o = Some h ->
       init (mkWorld o e) = (Ok INVALID_OPERATION, mkWorld o e))
    /\ (mHealth o = None ->
        first_handle 5 (svc_replies e) <> None ->
        init (state_of (init (mkWorld o e)))
        = (Ok INVALID_OPERATION, state_of (init (mkWorld o e)))).
Proof.
  intros o e. split.
  - intros h Hh. unfold init; run_monad. now rewrite Hh.
  - intros Ho Hn. pose proof (init_cases o e Ho) as H. cbv zeta in H.
    destruct (first_handle 5 (svc_replies e)) as [h|]; [|congruence].
    destruct H as (_ & Hs & _).
    destruct (init (mkWorld o e)) as [r w1]. cbn [state_of snd] in *.
    unfold init; run_monad. now rewrite Hs.
Qed.

Lemma second_init_is_refused_witness :
  mHealth (blank 9%nat (penv (booting BatteryStatus.FULL))) = None
  /\ first_handle 5 (svc_replies (penv (booting BatteryStatus.FULL))) <> None
  /\ result_of
       (init (state_of (init (mkWorld (blank 9%nat (penv (booting BatteryStatus.FULL)))
                                      (penv (booting BatteryStatus.FULL))))))
     = Ok INVALID_OPERATION.
Proof.
  assert (N : first_handle 5 (svc_replies (penv (booting BatteryStatus.FULL))) <> None)
    by discriminate.
  split; [reflexivity|]. split; [exact N|].
  exact (f_equal fst
           (proj2 (second_init_is_refused
                     (blank 9%nat (penv (booting BatteryStatus.FULL)))
                     (penv (booting BatteryStatus.FULL)))
                  eq_refl N)).
Defined.

(** A status read that fails (a transaction error, or a result other than
    SUCCESS, whatever status comes with it) does not stop [init]: the
    listener is linked with status UNKNOWN, which reads as not charging;
    the status the object held before [init] is not kept. *)
Theorem init_survives_a_failed_status_read :
  forall (o : BatteryListenerImpl) (e : Env) (h : Handle),
    mHealth o = None ->
    first_handle 5 (svc_replies e) = Some h ->
    (forall st rest, charge_replies e <> Reply Result.SUCCESS st :: rest) ->
    let r := init (mkWorld o e) in
    result_of r = Ok NO_ERROR
    /\ self (state_of r) = mkImpl (Some h) BatteryStatus.UNKNOWN (mCb o) (Some AtStart) false
    /\ result_of (isCharging (state_of r)) = Ok false.
Proof.
  intros o e h Ho Hh Hc r. pose proof (init_cases o e Ho) as H. cbv zeta in H.
  fold r in H. rewrite Hh in H. destruct H as (Hr & Hs & _).
  assert (Hi : initial_status (charge_replies e) = BatteryStatus.UNKNOWN).
  { destruct (charge_replies e) as [|[|[] st] rest]; try reflexivity.
    now elim (Hc st rest). }
  rewrite Hi in Hs. split; [exact Hr|]. split; [exact Hs|].
  subst r. destruct (init (mkWorld o e)) as [rr wr]. cbn in Hs |- *. now rewrite Hs.
Qed.

Lemma init_survives_a_failed_status_read_witness :
  result_of
    (isCharging
       (state_of
          (init (mkWorld (mkImpl None BatteryStatus.CHARGING 2%nat None true)
                   (mkEnv 0 [Some 4%nat] [Reply Result.NOT_SUPPORTED BatteryStatus.FULL]
                          BatteryStatus.CHARGING true [])))))
  = Ok false.
Proof.
  assert (N : forall st rest,
             [Reply Result.NOT_SUPPORTED BatteryStatus.FULL]
             <> Reply Result.SUCCESS st :: rest) by (intros st rest; discriminate).
  exact (proj2 (proj2 (init_survives_a_failed_status_read
                         (mkImpl None BatteryStatus.CHARGING 2%nat None true)
                         (mkEnv 0 [Some 4%nat]
                                [Reply Result.NOT_SUPPORTED BatteryStatus.FULL]
                                BatteryStatus.CHARGING true [])
                         4%nat eq_refl eq_refl N))).
Defined.

(** ** Further properties of the facade *)


(** The run of the detached thread of [init] in a process without a
    listener, from what [init] of the object did and what the other
    threads did in the two gaps. *)
Lemma init_then_t1_eq (fn : cb_fn_t) (gap1 gap2 : list Event) (e : Env)
      (st : status_t) (w' : World) :
  init (mkWorld (blank fn e) e) = (Ok st, w') ->
  let w1 := state_of (run gap1 w') in
  let w2 := state_of (run gap2 w1) in
  (loc_extn_battery_properties_listener_init fn ;; t1 gap1 gap2)
    (mkProcess false None [] e)
  = (Ok tt,
     mkProcess true (Some (self w2)) []
       (if statusToBool (mStatus (self w1))
        then emit_env (ACallback fn (clock (env w2)) true) (env w2)
        else env w2)).
Proof.
  intros E w1 w2.
  unfold loc_extn_battery_properties_listener_init, t1, bind.
  cbn [sIsBatteryListened negb detached batteryListener penv app].
  now rewrite (batteryPropertiesListenerInit_eq fn gap1 gap2 true [] e st w' E).
Qed.

(** The point query right after [init], before the detached thread has
    installed the listener, dereferences the null global. Once that thread
    has run and found the service, and as long as no push has changed the
    status, the query answers for the status [init] read: [true] exactly
    for CHARGING and FULL. *)
Theorem is_charging_before_and_after_t1 :
  forall (fn : cb_fn_t) (e : Env),
    result_of ((loc_extn_battery_properties_listener_init fn ;;
                loc_extn_battery_properties_is_charging) (mkProcess false None [] e))
    = Abort NullListener
    /\ forall (h : Handle) (gap1 gap2 : list Event),
         first_handle 5 (svc_replies e) = Some h ->
         forallb (keeps_status (initial_status (charge_replies e))) (gap1 ++ gap2)
         = true ->
         result_of ((loc_extn_battery_properties_listener_init fn ;;
                     t1 gap1 gap2 ;;
                     loc_extn_battery_properties_is_charging)
                      (mkProcess false None [] e))
         = Ok (match initial_status (charge_replies e) with
               | BatteryStatus.CHARGING | BatteryStatus.FULL => true
               | _ => false
               end).
Proof.
  intros fn e. split; [reflexivity|].
  intros h gap1 gap2 Hh Hk. rewrite forallb_app in Hk. apply andb_true_iff in Hk as [K1 K2].
  destruct (init_never_aborts (blank fn e) e eq_refl) as (st & w' & E).
  pose proof (init_cases (blank fn e) e eq_refl) as H. cbv zeta in H.
  rewrite Hh, E in H. cbn [result_of state_of fst snd] in H. destruct H as (_ & Hs & _).
  assert (W : worker_at_rest (initial_status (charge_replies e)) w').
  { split; rewrite Hs; [reflexivity|left; reflexivity]. }
  destruct (run_worker_at_rest _ gap1 w' W K1) as [W1 _].
  destruct (run_worker_at_rest _ gap2 _ W1 K2) as [[S2 _] _].
  pose proof (init_then_t1_eq fn gap1 gap2 e st w' E) as T. cbv zeta in T.
  unfold bind in T |- *.
  destruct (loc_extn_battery_properties_listener_init fn (mkProcess false None [] e))
    as [[[]|f] pi]; [|discriminate].
  rewrite T.
  unfold loc_extn_battery_properties_is_charging, batteryPropertiesListenerIsCharging,
    with_listener, isCharging, bind, ret, this, result_of.
  cbn [batteryListener penv fst self]. rewrite S2.
  destruct (initial_status (charge_replies e)); reflexivity.
Qed.

Lemma is_charging_before_and_after_t1_witness :
  first_handle 5 (svc_replies (penv (booting BatteryStatus.FULL))) = Some 3%nat
  /\ result_of ((loc_extn_battery_properties_listener_init 9%nat ;;
                 t1 [Wake] [Tick 900] ;;
                 loc_extn_battery_properties_is_charging) (booting BatteryStatus.FULL))
     = Ok true.
Proof.
  split; [reflexivity|].
  exact (proj2 (is_charging_before_and_after_t1 9%nat (penv (booting BatteryStatus.FULL)))
               3%nat [Wake] [Tick 900] eq_refl eq_refl).
Defined.

(** When the service is not found, the constructor leaves [mStatus] as
    the memory holds it and the facade reads it all the same: the
    immediate callback and the point query depend on that value. *)
Theorem failed_init_reads_uninitialised_status :
  forall (cb : cb_fn_t) (flag : bool) (det : list cb_fn_t) (e : Env),
    first_handle 5 (svc_replies e) = None ->
    let r := batteryPropertiesListenerInit cb [] [] (mkProcess flag None det e) in
    callbacks (trace (penv (state_of r)))
    = callbacks (trace e)
      ++ (if statusToBool (junk_status e)
          then [(clock e + 5 * GET_HEALTH_SVC_WAIT_TIME_MS, true)] else [])
    /\ result_of (batteryPropertiesListenerIsCharging (state_of r))
       = Ok (statusToBool (junk_status e)).
Proof.
  intros cb flag det e Hn.
  destruct (init_never_aborts (blank cb e) e eq_refl) as (st & w' & E).
  pose proof (init_cases (blank cb e) e eq_refl) as H. cbv zeta in H.
  rewrite Hn, E in H. cbn [result_of state_of fst snd] in H.
  destruct H as (_ & Hs & Ht & Hc).
  cbv zeta. rewrite (batteryPropertiesListenerInit_eq cb [] [] flag det e st w' E).
  cbn [run ret result_of state_of fst snd penv].
  unfold batteryPropertiesListenerIsCharging, with_listener, isCharging, bind, ret, this.
  cbn [batteryListener penv fst]. rewrite Hs. cbn [blank mStatus self fst].
  split; [|reflexivity].
  destruct (statusToBool (junk_status e)); cbn [emit_env trace]; rewrite Ht, ?Hc;
    rewrite ?callbacks_app, ?callbacks_attempts; cbn; now rewrite ?app_nil_r.
Qed.

Lemma failed_init_reads_uninitialised_status_witness :
  first_handle 5 (svc_replies (mkEnv 0 [] [] BatteryStatus.CHARGING false [])) = None
  /\ callbacks (trace (penv (state_of
       (batteryPropertiesListenerInit 9%nat [] []
          (mkProcess false None [] (mkEnv 0 [] [] BatteryStatus.CHARGING false []))))))
     = [(2500, true)].
Proof.
  split; [reflexivity|].
  exact (proj1 (failed_init_reads_uninitialised_status 9%nat false []
                  (mkEnv 0 [] [] BatteryStatus.CHARGING false []) eq_refl)).
Defined.

(** After a [deinit] that returned, the listener is gone: the point query
    dereferences the null global, and a second [deinit] does nothing. *)
Theorem after_deinit_the_listener_is_gone :
  forall (p : Process),
    let r := loc_extn_battery_properties_listener_deinit p in
    result_of r = Ok tt ->
    result_of (loc_extn_battery_properties_is_charging (state_of r)) = Abort NullListener
    /\ loc_extn_battery_properties_listener_deinit (state_of r) = (Ok tt, state_of r).
Proof.
  intros p r Hr. subst r. rewrite deinit_eq in *. cbn [result_of state_of fst snd] in *.
  pose proof (set_batteryListener_done None p Hr) as Hn.
  destruct (state_of (set_batteryListener None p)) as [f l dt en]. cbn in Hn. subst l.
  split; reflexivity.
Qed.

Lemma after_deinit_the_listener_is_gone_witness :
  result_of (loc_extn_battery_properties_listener_deinit
               (state_of ((loc_extn_battery_properties_listener_init 9%nat ;; t1 [] [])
                            (booting BatteryStatus.CHARGING)))) = Ok tt
  /\ result_of
       (loc_extn_battery_properties_is_charging
          (state_of (loc_extn_battery_properties_listener_deinit
             (state_of ((loc_extn_battery_properties_listener_init 9%nat ;; t1 [] [])
                          (booting BatteryStatus.CHARGING))))))
     = Abort NullListener.
Proof.
  assert (H : result_of (loc_extn_battery_properties_listener_deinit
                 (state_of ((loc_extn_battery_properties_listener_init 9%nat ;; t1 [] [])
                              (booting BatteryStatus.CHARGING)))) = Ok tt)
    by (vm_compute; reflexivity).
  split; [exact H|].
  exact (proj1 (after_deinit_the_listener_is_gone
                  (state_of ((loc_extn_battery_properties_listener_init 9%nat ;; t1 [] [])
                               (booting BatteryStatus.CHARGING))) H)).
Defined.

(** ** A listener that gave up *)

Lemma step_exited (e : Event) (w : World) :
  mThread (self w) = Some Exited ->
  let w' := state_of (step e w) in
  mThread (self w') = Some Exited
  /\ mHealth (self w') = mHealth (self w)
  /\ trace (env w') = trace (env w).
Proof.
  intros H. destruct e; cbn [step].
  - unfold tick_to; cbn. auto.
  - rewrite worker_wake_eq, H. cbn. auto.
  - unfold healthInfoChanged; run_monad. destruct (negb _); cbn; auto.
  - unfold healthInfoChanged_2_1, healthInfoChanged; run_monad.
    destruct (negb _); cbn; auto.
Qed.

Lemma run_exited (evs : list Event) (w : World) :
  mThread (self w) = Some Exited ->
  let w' := state_of (run evs w) in
  mThread (self w') = Some Exited
  /\ mHealth (self w') = mHealth (self w)
  /\ trace (env w') = trace (env w).
Proof.
  cbv zeta. revert w; induction evs as [|e evs IH]; intros w H; [cbn; auto|].
  destruct (step_exited e w H) as (H1 & H2 & H3). cbv zeta in *.
  rewrite run_cons. destruct (IH _ H1) as (I1 & I2 & I3).
  split; [exact I1|]. split; congruence.
Qed.

(** When the held interface dies and none of the next five lookups finds
    a service, the listener is left without a handle and with its worker
    out of its loop, for good: whatever is pushed afterwards, nothing is
    reported, every later death notice is ignored (so the lookup is never
    tried again), and the teardown dereferences the null handle. *)
Theorem listener_that_gave_up_stays_dead :
  forall (ie : option Handle -> option Handle -> bool) (who who' : option Handle)
         (h : Handle) (s : BatteryStatus.t) (cb : cb_fn_t) (th : Worker)
         (d0 : bool) (e : Env) (evs : list Event),
    ie (Some h) who = true ->
    first_handle 5 (svc_replies e) = None ->
    let w1 := state_of (serviceDied ie who
                          (mkWorld (mkImpl (Some h) s cb (Some th) d0) e)) in
    let w2 := state_of (run evs w1) in
    trace (env w2) = trace (env w1)
    /\ serviceDied ie who' w2 = (Ok tt, w2)
    /\ result_of (destroy w2) = Abort NullHealth.
Proof.
  intros ie who who' h s cb th d0 e evs Hw Hn w1 w2.
  destruct (serviceDied_fields ie who h s cb th d0 e Hw) as (_ & Hs & _).
  fold w1 in Hs. rewrite Hn in Hs.
  assert (Ht : mThread (self w1) = Some Exited) by now rewrite Hs.
  destruct (run_exited evs w1 Ht) as (_ & Hh & Htr). fold w2 in Hh, Htr.
  rewrite Hs in Hh. cbn [mHealth] in Hh.
  split; [exact Htr|]. split.
  - unfold serviceDied; run_monad. now rewrite Hh.
  - unfold destroy; run_monad. now rewrite Hh.
Qed.

Lemma listener_that_gave_up_stays_dead_witness :
  same_binder (Some 1%nat) (Some 1%nat) = true
  /\ first_handle 5 (svc_replies (quiet_env 0)) = None
  /\ result_of
       (destroy
          (state_of
             (run [push BatteryStatus.DISCHARGING; Wake]
                (state_of
                   (serviceDied same_binder (Some 1%nat)
                      (mkWorld (mkImpl (Some 1%nat) BatteryStatus.CHARGING 2%nat
                                       (Some (AtWait BatteryStatus.CHARGING)) false)
                               (quiet_env 0)))))))
     = Abort NullHealth.
Proof.
  split; [reflexivity|]. split; [reflexivity|].
  exact (proj2 (proj2 (listener_that_gave_up_stays_dead same_binder (Some 1%nat) None
                         1%nat BatteryStatus.CHARGING 2%nat
                         (AtWait BatteryStatus.CHARGING) false (quiet_env 0)
                         [push BatteryStatus.DISCHARGING; Wake] eq_refl eq_refl))).
Defined.
